(** * MCP960X MicroPython driver: shallow embedding and verified properties

    The development follows [src/mcp960x.py].  The driver talks to the
    thermocouple converter over an I2C bus object; here the bus object is a
    register-file device together with the log of the transactions issued on
    it, and every driver method is a computation in a state-and-exception
    monad over the driver object and the bus.

    Python integers are [Z], with the bit operations of [Z]; Python floats are
    rationals [Q] compared with [==]: the step sizes 1, 0.25 and 0.0625 are
    powers of two, so the products and quotients the driver forms with them
    are exact for numbers within floating-point range.  Delays ([sleep_us]) and console output ([print]) have no
    effect on the state and are left out. *)

From Stdlib Require Import ZArith QArith Qround Qabs Lia Strings.Byte String Ascii DecimalString List.
From stdpp Require Import base option list gmap strings.

Local Close Scope Q_scope.
Local Open Scope Z_scope.

(** ** Bytes on the bus *)

Definition byte_val (b : byte) : Z := Z.of_N (Byte.to_N b).

(** One element of Python's [bytes([...])]: a value outside [range(256)]
    makes the constructor raise. *)
Definition mk_byte (z : Z) : option byte :=
  if (0 <=? z) && (z <? 256) then Byte.of_N (Z.to_N z) else None.

(** ** The device behind the I2C bus *)

(** Modelled from the spec: the bus object handed to the driver and the chip
    behind it, which are not part of the driver source.  A write transaction
    carries the register pointer in its first byte and the new register
    contents in the remaining ones ([setPointer] and [writeRegister] of the
    transport contract); a read transaction returns bytes starting at the
    register selected by the last write and moves on to the following
    registers when one is exhausted (the auto-increment of the module
    docstring, lines 15-19 of the source), and leaves the selection where the
    last write put it. *)

Record device := Device {
  pointer : Z;
  regs : gmap Z (list byte)
}.

Inductive bus_event :=
| BusWrite (payload : list byte)
| BusRead (data : list byte).

Record I2C := Bus {
  dev : device;
  log : list bus_event
}.

Definition reg_bytes (d : device) (r : Z) : list byte :=
  default [] (regs d !! r).

Fixpoint dev_stream (d : device) (r : Z) (n : nat) : list byte :=
  match n with
  | O => []
  | S n' => reg_bytes d r ++ dev_stream d (r + 1) n'
  end.

Definition dev_read (d : device) (n : nat) : list byte :=
  take n (dev_stream d (pointer d) n ++ replicate n x00).

Definition dev_write (d : device) (payload : list byte) : device :=
  match payload with
  | [] => d
  | [p] => Device (byte_val p) (regs d)
  | p :: data => Device (byte_val p) (<[byte_val p := data]> (regs d))
  end.

(** [i2c.writeto(address, buf)] *)
Definition writeto (i2c : I2C) (buf : list byte) : I2C :=
  Bus (dev_write (dev i2c) buf) (log i2c ++ [BusWrite buf]).

(** [i2c.readfrom_into(address, buf)] for a buffer of [n] bytes *)
Definition readfrom_into (i2c : I2C) (n : nat) : list byte * I2C :=
  let data := dev_read (dev i2c) n in
  (data, Bus (dev i2c) (log i2c ++ [BusRead data])).

(** ** Driver object and the monad of its methods *)

Record MCP960X := Handle {
  i2c : I2C;
  address : Z;
  _t_stretch : Z;
  _adc_resolution : Z;
  _cold_junction_res : Q;
  dev_id : Z
}.

Inductive exn :=
| AssertionError
| ValueError (msg : string)
| KeyError
| TypeError (msg : string)
| IndexError.

Inductive outcome (A : Type) :=
| Ok (a : A)
| Raise (e : exn).
Arguments Ok {A} a.
Arguments Raise {A} e.

Definition M (A : Type) : Type := MCP960X -> outcome A * MCP960X.

Definition ret {A} (a : A) : M A := fun s => (Ok a, s).
Definition raise {A} (e : exn) : M A := fun s => (Raise e, s).
Definition bind {A B} (m : M A) (k : A -> M B) : M B :=
  fun s => match m s with
           | (Ok a, s') => k a s'
           | (Raise e, s') => (Raise e, s')
           end.
Definition get_self : M MCP960X := fun s => (Ok s, s).

Declare Scope py_scope.
Delimit Scope py_scope with py.
Notation "x <- m ;; k" := (bind m (fun x => k))
  (at level 100, m at next level, right associativity) : py_scope.
Notation "m ;;; k" := (bind m (fun _ => k))
  (at level 100, right associativity) : py_scope.
Local Open Scope py_scope.

(** The driver object after the bus it holds has moved to state [b]. *)
Definition with_i2c (s : MCP960X) (b : I2C) : MCP960X :=
  Handle b (address s) (_t_stretch s) (_adc_resolution s)
         (_cold_junction_res s) (dev_id s).

Definition set_i2c (b : I2C) : M unit := fun s => (Ok tt, with_i2c s b).

(** Attribute assignments [self.x = v]. *)
Definition set_adc_resolution (v : Z) : M unit :=
  fun s => (Ok tt, Handle (i2c s) (address s) (_t_stretch s) v
                     (_cold_junction_res s) (dev_id s)).
Definition set_cold_junction_res (v : Q) : M unit :=
  fun s => (Ok tt, Handle (i2c s) (address s) (_t_stretch s)
                     (_adc_resolution s) v (dev_id s)).
Definition set_dev_id (v : Z) : M unit :=
  fun s => (Ok tt, Handle (i2c s) (address s) (_t_stretch s)
                     (_adc_resolution s) (_cold_junction_res s) v).

(** ** Python built-ins used by the driver *)

(** [bytes([...])] *)
Definition bytes (l : list Z) : M (list byte) :=
  match mapM mk_byte l with
  | Some bs => ret bs
  | None => raise (ValueError "bytes must be in range(0, 256)")
  end.

(** [data[i]] on a bytearray *)
Definition getitem (data : list byte) (i : nat) : M Z :=
  match data !! i with
  | Some b => ret (byte_val b)
  | None => raise IndexError
  end.

(** Dictionaries with literal contents: [k in d], [d[k]] and [d.get(k, v)]
    over the list of items, for a key equality [eqb]. *)
Section Dict.
Context {K V : Type} (eqb : K -> K -> bool).

Fixpoint dict_find (d : list (K * V)) (k : K) : option V :=
  match d with
  | [] => None
  | (k', v) :: d' => if eqb k k' then Some v else dict_find d' k
  end.

Definition dict_in (d : list (K * V)) (k : K) : bool :=
  match dict_find d k with Some _ => true | None => false end.

Definition dict_get (d : list (K * V)) (k : K) (dflt : V) : V :=
  match dict_find d k with Some v => v | None => dflt end.

Definition dict_subscript (d : list (K * V)) (k : K) : M V :=
  match dict_find d k with
  | Some v => ret v
  | None => raise KeyError
  end.
End Dict.

(** [str(n)] for an integer *)
Definition str (n : Z) : string := NilZero.string_of_int (Z.to_int n).

(** [s.upper()] on ASCII letters *)
Definition upper_ascii (c : ascii) : ascii :=
  let n := nat_of_ascii c in
  if ((97 <=? n) && (n <=? 122))%nat then ascii_of_nat (n - 32) else c.

Fixpoint upper (s : string) : string :=
  match s with
  | EmptyString => EmptyString
  | String c s' => String (upper_ascii c) (upper s')
  end.

(** [int(x)] on a number: truncation towards zero *)
Definition int (x : Q) : Z := Z.quot (Qnum x) (Zpos (Qden x)).

(** [bool(n)] on an integer *)
Definition truthy (n : Z) : bool := negb (n =? 0).

(** ** Class constants *)

Definition REG_HOT_JUNCTION : Z := 0x00.
Definition REG_DELTA_TEMP : Z := 0x01.
Definition REG_COLD_JUNCTION : Z := 0x02.
Definition REG_RAW_ADC : Z := 0x03.
Definition REG_STATUS : Z := 0x04.
Definition REG_THERMO_CONFIG : Z := 0x05.
Definition REG_DEVICE_CONFIG : Z := 0x06.
Definition REG_ALERT_STATUS : Z := 0x07.
Definition REG_ALERT_CONFIG : Z := 0x08.
Definition REG_ALERT_HYSTERESIS : Z := 0x0C.
Definition REG_ALERT_LIMIT : Z := 0x10.
Definition REG_DEVICE_ID : Z := 0x20.

Definition ADC_RESOLUTIONS : list (Z * Z) :=
  [(12, 3); (14, 2); (16, 1); (18, 0)].

Definition COLD_JUNCTION_RES : list (Q * Z) :=
  [((1 # 16)%Q, 0); ((1 # 4)%Q, 1)].

Definition THERMOCOUPLE_TYPES : list (string * Z) :=
  [("K", 0); ("J", 1); ("T", 2); ("N", 3);
   ("S", 4); ("E", 5); ("B", 6); ("R", 7)]%string.

(** ** Transport *)

Definition i2c_writeto (buf : list byte) : M unit :=
  s <- get_self;; set_i2c (writeto (i2c s) buf).

Definition _write_pointer (pointer : Z) : M unit :=
  buf <- bytes [pointer];; i2c_writeto buf.

(** The buffer is a [bytearray(n_bytes)] filled by the bus; the settle delay
    that follows has no effect on the state. *)
Definition _read_bytes (n_bytes : nat) : M (list byte) :=
  s <- get_self;;
  let '(data, b) := readfrom_into (i2c s) n_bytes in
  set_i2c b;;; ret data.

(** ** Device model layer *)

Definition get_device_id_and_revision : M (Z * Z) :=
  _write_pointer REG_DEVICE_ID;;;
  data <- _read_bytes 2;;
  d0 <- getitem data 0;;
  d1 <- getitem data 1;;
  ret (d0, d1).

Definition set_thermocouple_type (type_char : string) : M unit :=
  data <- _read_bytes 1;;
  d0 <- getitem data 0;;
  let config := Z.land d0 0x8F in
  code <- dict_subscript String.eqb THERMOCOUPLE_TYPES (upper type_char);;
  let config := Z.lor config (Z.shiftl code 4) in
  buf <- bytes [REG_THERMO_CONFIG; config];;
  i2c_writeto buf.

Definition set_filter_coefficient (n : Z) : M unit :=
  data <- _read_bytes 1;;
  d0 <- getitem data 0;;
  let config := Z.land d0 0xF8 in
  let config := Z.lor config (Z.min n 7) in
  buf <- bytes [REG_THERMO_CONFIG; config];;
  i2c_writeto buf.

(** The 16-bit word of a register pair, read as the source does in
    [read_temperatures] and [read_all_alerts]. *)
Definition word16 (hi lo : Z) : Z :=
  let val := Z.lor (Z.shiftl hi 8) lo in
  if truthy (Z.land val 0x8000) then val - 65536 else val.

Record TemperatureReading := Temps {
  T_H : Q;
  T_delta : Q;
  T_C : Q
}.

Fixpoint temps_loop (data : list byte) (adc_lsb cold_lsb : Q)
    (range : list nat) (temps : list Q) : M (list Q) :=
  match range with
  | [] => ret temps
  | i :: range' =>
      hi <- getitem data i;;
      lo <- getitem data (i + 1);;
      let val := word16 hi lo in
      let lsb := if (i =? 4)%nat then cold_lsb else adc_lsb in
      temps_loop data adc_lsb cold_lsb range' (temps ++ [(inject_Z val * lsb)%Q])
  end.

Definition qitem (l : list Q) (i : nat) : M Q :=
  match l !! i with
  | Some q => ret q
  | None => raise IndexError
  end.

Definition read_temperatures : M TemperatureReading :=
  s <- get_self;;
  let adc_lsb :=
    dict_get Z.eqb [(12, 1%Q); (14, (1 # 4)%Q); (16, (1 # 16)%Q); (18, (1 # 16)%Q)]
             (_adc_resolution s) (1 # 16)%Q in
  let cold_lsb := _cold_junction_res s in
  _write_pointer REG_HOT_JUNCTION;;;
  data <- _read_bytes 6;;
  temps <- temps_loop data adc_lsb cold_lsb [0; 2; 4]%nat [];;
  t0 <- qitem temps 0;;
  t1 <- qitem temps 1;;
  t2 <- qitem temps 2;;
  ret (Temps t0 t1 t2).

Definition set_resolution (adc_bits : Z) (cold_junction_res : Q) : M unit :=
  let adc_bits :=
    if negb (dict_in Z.eqb ADC_RESOLUTIONS adc_bits) then 18 else adc_bits in
  set_adc_resolution adc_bits;;;
  let cold_junction_res :=
    if negb (dict_in Qeq_bool COLD_JUNCTION_RES cold_junction_res)
    then (1 # 16)%Q else cold_junction_res in
  set_cold_junction_res cold_junction_res;;;
  let config := 0 in
  a <- dict_subscript Z.eqb ADC_RESOLUTIONS adc_bits;;
  let config := Z.lor config (Z.shiftl a 5) in
  c <- dict_subscript Qeq_bool COLD_JUNCTION_RES cold_junction_res;;
  let config := Z.lor config (Z.shiftl c 7) in
  buf <- bytes [REG_DEVICE_CONFIG; config];;
  i2c_writeto buf.

Definition set_power_mode (mode : string) : M unit :=
  data <- _read_bytes 1;;
  d0 <- getitem data 0;;
  let config := Z.land d0 0xFC in
  let config :=
    if String.eqb mode "shutdown" then Z.lor config 1
    else if String.eqb mode "burst" then Z.lor config 2
    else config in
  buf <- bytes [REG_DEVICE_CONFIG; config];;
  i2c_writeto buf.

Record AlertRegisters := Alerts {
  configs : list byte;
  limits : list Q;
  hysteresis : list byte
}.

Fixpoint limits_loop (limits_data : list byte) (range : list nat)
    (limits : list Q) : M (list Q) :=
  match range with
  | [] => ret limits
  | i :: range' =>
      hi <- getitem limits_data i;;
      lo <- getitem limits_data (i + 1);;
      let val := word16 hi lo in
      limits_loop limits_data range' (limits ++ [(inject_Z val * (1 # 16))%Q])
  end.

Definition read_all_alerts : M AlertRegisters :=
  _write_pointer REG_ALERT_CONFIG;;;
  configs <- _read_bytes 4;;
  _write_pointer REG_ALERT_LIMIT;;;
  limits_data <- _read_bytes 8;;
  limits <- limits_loop limits_data [0; 2; 4; 6]%nat [];;
  _write_pointer REG_ALERT_HYSTERESIS;;;
  hyst <- _read_bytes 4;;
  ret (Alerts configs limits hyst).

(** The limit word of [set_alert] (lines 231-232).  The limit is the exact
    value of the number passed; quotient and truncation are those of the
    source as long as the quotient by 0.0625 is exact and finite in floating
    point, which the properties that depend on the limit ensure by bounding
    it to a whole number of steps of 0.0625. *)
Definition limit_word (limit : Q) : Z :=
  let limit_val := int (Qabs limit / (1 # 16))%Q in
  if negb (Qle_bool 0 limit) then Z.lor limit_val 0x8000 else limit_val.

Definition set_alert (alert_num : Z) (enable : bool) (limit : Q)
    (hysteresis : Z) (monitor : string) (rising active_low : bool)
    (mode : string) (clear_interrupt : bool) : M unit :=
  if negb ((1 <=? alert_num) && (alert_num <=? 4)) then raise AssertionError
  else
    let limit_val := limit_word limit in
    buf <- bytes [REG_ALERT_LIMIT + (alert_num - 1);
                  Z.land (Z.shiftr limit_val 8) 0xFF;
                  Z.land limit_val 0xFF];;
    i2c_writeto buf;;;
    buf <- bytes [REG_ALERT_HYSTERESIS + (alert_num - 1);
                  Z.min hysteresis 255];;
    i2c_writeto buf;;;
    let config := 0 in
    let config := if enable then Z.lor config 0x01 else config in
    let config := if String.eqb mode "interrupt" then Z.lor config 0x02 else config in
    let config := if negb active_low then Z.lor config 0x04 else config in
    let config := if negb rising then Z.lor config 0x08 else config in
    let config := if String.eqb monitor "TC" then Z.lor config 0x10 else config in
    let config := if clear_interrupt then Z.lor config 0x80 else config in
    buf <- bytes [REG_ALERT_CONFIG + (alert_num - 1); config];;
    i2c_writeto buf.

Record StatusSnapshot := Status {
  burst_complete : bool;
  temp_updated : bool;
  short_circuit : bool;
  input_range_error : bool;
  alerts : list bool
}.

Definition get_status : M StatusSnapshot :=
  _write_pointer REG_STATUS;;;
  data <- _read_bytes 1;;
  status <- getitem data 0;;
  s <- get_self;;
  let sc := if dev_id s =? 0x40 then false
            else truthy (Z.land status (Z.shiftl 1 5)) in
  ret (Status (truthy (Z.land status (Z.shiftl 1 7)))
              (truthy (Z.land status (Z.shiftl 1 6)))
              sc
              (truthy (Z.land status (Z.shiftl 1 4)))
              (map (fun i => truthy (Z.land status (Z.shiftl 1 i))) [0; 1; 2; 3])).

(** The values the [alerts] argument of [get_alerts] takes. *)
Inductive selector :=
| PyNone
| PyInt (n : Z)
| PyList (l : list Z)
| PyRange (lo hi : Z).

(** [for alert_num in alerts]: the items of an iterable; an [int] has none
    to give. *)
Definition iter (v : selector) : M (list Z) :=
  match v with
  | PyList l => ret l
  | PyRange lo hi => ret (map (fun k => lo + Z.of_nat k) (seq 0 (Z.to_nat (hi - lo))))
  | PyInt _ => raise (TypeError "'int' object is not iterable")
  | PyNone => raise (TypeError "'NoneType' object is not iterable")
  end.

Fixpoint alerts_loop (status : Z) (items : list Z)
    (result : gmap string bool) : M (gmap string bool) :=
  match items with
  | [] => ret result
  | alert_num :: items' =>
      if negb ((1 <=? alert_num) && (alert_num <=? 4))
      then raise (ValueError (String.append "Alert number must be 1-4, got "
                                            (str alert_num)))
      else alerts_loop status items'
             (<[str alert_num :=
                  truthy (Z.land status (Z.shiftl 1 (alert_num - 1)))]> result)
  end.

Definition get_alerts (alerts : selector) : M (gmap string bool) :=
  _write_pointer REG_STATUS;;;
  data <- _read_bytes 1;;
  status <- getitem data 0;;
  let alerts :=
    match alerts with
    | PyNone => PyRange 1 5
    | PyInt n => PyInt n   (* [alerts = (alerts)] rebinds the same int *)
    | other => other
    end in
  let result : gmap string bool := ∅ in
  items <- iter alerts;;
  alerts_loop status items result.

(** Construction.  The attribute [dev_id] exists only once the identity has
    been read; until then the record holds 0 in its place, which nothing
    reads.  [set_resolution()] is called with its defaults, not with the
    constructor's arguments. *)
Definition __init__ (i2c : I2C) (address : Z) (tctype : string) (tcfilter : Z)
    (cold_junction_res : Q) (adc_resolution : Z) : outcome unit * MCP960X :=
  (idrev <- get_device_id_and_revision;;
   set_dev_id (fst idrev);;;
   set_thermocouple_type tctype;;;
   set_filter_coefficient tcfilter;;;
   set_resolution 18 (1 # 16)%Q)
  (Handle i2c address 60 adc_resolution cold_junction_res 0).

(** ** Vocabulary of the properties *)

(** The byte a one-byte read returns: the first byte of the register the
    pointer selects. *)
Definition cur_byte (d : device) : byte := hd x00 (reg_bytes d (pointer d)).

(** A register pair as a big-endian 16-bit two's-complement integer, and the
    step per count of the hot-junction and delta registers, as the
    specification words them. *)
Definition twos_complement16 (hi lo : byte) : Z :=
  let u := 256 * byte_val hi + byte_val lo in
  if 32768 <=? u then u - 65536 else u.

Definition adc_step (bits : Z) : Q :=
  if bits =? 12 then 1%Q else if bits =? 14 then (1 # 4)%Q else (1 # 16)%Q.

(** The two bytes [set_alert] sends for a limit, and the value
    [read_all_alerts] makes of two limit bytes. *)
Definition limit_hi (limit : Q) : Z := Z.land (Z.shiftr (limit_word limit) 8) 0xFF.
Definition limit_lo (limit : Q) : Z := Z.land (limit_word limit) 0xFF.
Definition limit_counts (limit : Q) : Z := word16 (limit_hi limit) (limit_lo limit).

(** A device with every register the driver touches present at its width,
    identity 0x40 revision 0x11, hot junction 0x0140, delta 0xFF38, cold
    junction 0x0190, status 0x0A, filter 7 and power mode shutdown. *)
Definition sample_device : device :=
  Device 0 (list_to_map
    [(0x00, [x01; x40]); (0x01, [xff; x38]); (0x02, [x01; x90]);
     (0x03, [x00; x00; x00]); (0x04, [x0a]); (0x05, [x07]); (0x06, [x01]);
     (0x07, [x00]);
     (0x08, [x00]); (0x09, [x00]); (0x0A, [x00]); (0x0B, [x00]);
     (0x0C, [x00]); (0x0D, [x00]); (0x0E, [x00]); (0x0F, [x00]);
     (0x10, [x00; x00]); (0x11, [x00; x00]); (0x12, [x00; x00]);
     (0x13, [x00; x00]); (0x20, [x40; x11])]).

Definition sample_handle : MCP960X :=
  Handle (Bus sample_device []) 0x67 60 18 (1 # 16)%Q 0x40.

(** Channel numbers [get_alerts] and [set_alert] accept, and the first
    number of a list that is not one. *)
Definition valid_channel (c : Z) : bool := (1 <=? c) && (c <=? 4).

Fixpoint first_invalid (l : list Z) : option Z :=
  match l with
  | [] => None
  | c :: l' => if valid_channel c then first_invalid l' else Some c
  end.

Definition is_bus_write (ev : bus_event) : bool :=
  match ev with BusWrite _ => true | BusRead _ => false end.

(** Fields of the two configuration registers as the device holds them. *)
Definition reg_byte (d : device) (r : Z) : option Z :=
  match regs d !! r with
  | Some (b :: _) => Some (byte_val b)
  | _ => None
  end.

Definition power_mode_bits (d : device) : option Z :=
  (fun cfg => Z.land cfg 0x03) <$> reg_byte d REG_DEVICE_CONFIG.

Definition filter_field (d : device) : option Z :=
  (fun cfg => Z.land cfg 0x07) <$> reg_byte d REG_THERMO_CONFIG.

Definition clamp (lo hi n : Z) : Z := Z.max lo (Z.min n hi).

(** Resolutions a device-config byte encodes (bits 5-6 and bit 7), and the
    arguments [set_resolution] takes as they are. *)
Definition config_adc_bits (cfg : Z) : Z :=
  match Z.land (Z.shiftr cfg 5) 0x03 with
  | 3 => 12
  | 2 => 14
  | 1 => 16
  | _ => 18
  end.

Definition config_cold_res (cfg : Z) : Q :=
  if Z.testbit cfg 7 then (1 # 4)%Q else (1 # 16)%Q.

Definition valid_adc_bits (bits : Z) : bool :=
  (bits =? 12) || (bits =? 14) || (bits =? 16) || (bits =? 18).

Definition valid_cold_res (res : Q) : bool :=
  Qeq_bool res (1 # 16) || Qeq_bool res (1 # 4).

(** The contents most recently written to register [r], from the log of
    bus transactions; a bare pointer write carries none. *)
Fixpoint last_write_to (r : Z) (l : list bus_event) : option (list byte) :=
  match l with
  | [] => None
  | ev :: l' =>
      match last_write_to r l' with
      | Some data => Some data
      | None =>
          match ev with
          | BusWrite (p :: b :: data) =>
              if byte_val p =? r then Some (b :: data) else None
          | _ => None
          end
      end
  end.

Definition cached (s : MCP960X) : Z * Q :=
  (_adc_resolution s, _cold_junction_res s).

Definition cache_consistent (s : MCP960X) : Prop :=
  exists b,
    last_write_to REG_DEVICE_CONFIG (log (i2c s)) = Some [b] /\
    config_adc_bits (byte_val b) = _adc_resolution s /\
    (config_cold_res (byte_val b) == _cold_junction_res s)%Q.

(** The public methods other than [set_resolution], as calls. *)
Inductive call :=
| CallGetDeviceIdAndRevision
| CallSetThermocoupleType (type_char : string)
| CallSetFilterCoefficient (n : Z)
| CallReadTemperatures
| CallSetPowerMode (mode : string)
| CallReadAllAlerts
| CallSetAlert (alert_num : Z) (enable : bool) (limit : Q) (hysteresis : Z)
    (monitor : string) (rising active_low : bool) (mode : string)
    (clear_interrupt : bool)
| CallGetStatus
| CallGetAlerts (alerts : selector).

Definition discard {A} (m : M A) : M unit := _ <- m;; ret tt.

Definition run (c : call) : M unit :=
  match c with
  | CallGetDeviceIdAndRevision => discard get_device_id_and_revision
  | CallSetThermocoupleType t => set_thermocouple_type t
  | CallSetFilterCoefficient n => set_filter_coefficient n
  | CallReadTemperatures => discard read_temperatures
  | CallSetPowerMode mode => set_power_mode mode
  | CallReadAllAlerts => discard read_all_alerts
  | CallSetAlert a e l h mon r al mode c => set_alert a e l h mon r al mode c
  | CallGetStatus => discard get_status
  | CallGetAlerts sel => discard (get_alerts sel)
  end.

(** Statements under test, each at one call. *)

(** The call stores in bits 0-2 of the thermocouple-config register the
    coefficient clamped to 0..7, without an error. *)
Definition stores_clamped_filter (n : Z) (s : MCP960X) : Prop :=
  exists s', set_filter_coefficient n s = (Ok tt, s') /\
             filter_field (dev (i2c s')) = Some (clamp 0 7 n).

(** The call leaves bits 0-1 of the device-config register as they were. *)
Definition power_mode_untouched (mode : string) (s : MCP960X) : Prop :=
  power_mode_bits (dev (i2c (snd (set_power_mode mode s)))) =
  power_mode_bits (dev (i2c s)).

(** The call fails and has put no write transaction on the bus. *)
Definition fails_before_any_write (sel : selector) (s : MCP960X) : Prop :=
  exists e s', get_alerts sel s = (Raise e, s') /\
    forallb (fun ev => negb (is_bus_write ev))
            (drop (length (log (i2c s))) (log (i2c s'))) = true.

(** The limit read back after [set_alert] is the limit that was set. *)
Definition limit_reads_back (alert_num : Z) (limit : Q) (s : MCP960X) : Prop :=
  exists s1 r s2 q,
    set_alert alert_num true limit 10 "TH" true false "comparator" false s
      = (Ok tt, s1) /\
    read_all_alerts s1 = (Ok r, s2) /\
    limits r !! Z.to_nat (alert_num - 1) = Some q /\ (q == limit)%Q.

(** The call puts the type code in bits 4-6 of the thermocouple-config
    register and keeps its other bits. *)
Definition writes_type_keeps_rest (type_char : string) (code : Z)
    (s : MCP960X) : Prop :=
  exists s' old new,
    set_thermocouple_type type_char s = (Ok tt, s') /\
    reg_byte (dev (i2c s)) REG_THERMO_CONFIG = Some old /\
    reg_byte (dev (i2c s')) REG_THERMO_CONFIG = Some new /\
    new = Z.lor (Z.land old 0x8F) (Z.shiftl code 4).

(** Bits 0-1 of the device-config register for a power mode: 01 for
    shutdown, 10 for burst, 00 for normal. *)
Definition power_mode_code (mode : string) : Z :=
  if String.eqb mode "shutdown" then 1
  else if String.eqb mode "burst" then 2 else 0.

(** Bit [c - 1] of the status byte, and the mapping [get_alerts] builds
    from the channels of a list, one insertion after the other. *)
Definition status_bit (status : Z) (c : Z) : bool := Z.testbit status (c - 1).

Definition alerts_fold (status : Z) (items : list Z) (result : gmap string bool)
  : gmap string bool :=
  foldl (fun m c => <[str c := truthy (Z.land status (Z.shiftl 1 (c - 1)))]> m)
        result items.

(** A computation that leaves the cached resolution fields as they were,
    whatever its outcome. *)
Definition keeps_cache {A} (m : M A) : Prop :=
  forall s, cached (snd (m s)) = cached s.

(** ** Further vocabulary *)

(** A computation that leaves the observation [f] of the driver object as it
    was, whatever its outcome. *)
Definition preserves {A T : Type} (f : MCP960X -> T) (m : M A) : Prop :=
  forall s, f (snd (m s)) = f s.

(** The register contents of the device, and the fields fixed at
    construction. *)
Definition device_regs (s : MCP960X) : gmap Z (list byte) := regs (dev (i2c s)).

Definition identity (s : MCP960X) : Z * Z * Z :=
  (address s, _t_stretch s, dev_id s).

(** The public methods that only read. *)
Definition is_query (c : call) : bool :=
  match c with
  | CallGetDeviceIdAndRevision | CallReadTemperatures | CallReadAllAlerts
  | CallGetStatus | CallGetAlerts _ => true
  | _ => false
  end.

(** Bits 4-6 of the thermocouple-config register. *)
Definition type_field (d : device) : option Z :=
  (fun cfg => Z.land (Z.shiftr cfg 4) 0x07) <$> reg_byte d REG_THERMO_CONFIG.


(** The alert configuration byte, bit by bit. *)
Definition b2z (b : bool) : Z := if b then 1 else 0.

Definition alert_config_bits (enable : bool) (monitor : string)
    (rising active_low : bool) (mode : string) (clear_interrupt : bool) : Z :=
  b2z enable + 2 * b2z (String.eqb mode "interrupt")
  + 4 * b2z (negb active_low) + 8 * b2z (negb rising)
  + 16 * b2z (String.eqb monitor "TC") + 128 * b2z clear_interrupt.

(** The alert registers of a device at their widths: one byte for each
    configuration and hysteresis register, two for each limit register. *)
Definition alert_registers_present (d : device) : Prop :=
  Forall (fun r => length (reg_bytes d r) = 1%nat)
         [0x08; 0x09; 0x0A; 0x0B; 0x0C; 0x0D; 0x0E; 0x0F] /\
  Forall (fun r => length (reg_bytes d r) = 2%nat) [0x10; 0x11; 0x12; 0x13].

(** The alert set-up of [examples/example_complete_celsius.py] (lines 92-99
    and 103-110), for the channel and the two constants it is written for. *)
Definition example_set_alert (alert_num ALERT_TEMP ALERT_HYST : Z) : M unit :=
  let rising := if 0 <? ALERT_TEMP then true else false in
  let limit := ALERT_TEMP in
  let hysteresis := Z.min 0 ALERT_HYST in
  set_alert alert_num true (inject_Z limit) hysteresis "TH" rising false
            "comparator" false.

(** The byte of a value in 0..255, the register and data of a write
    transaction as numbers, the transactions a call has added to the log,
    and the limits [read_all_alerts] makes of the eight limit bytes. *)
Definition byte_of (z : Z) : byte := default x00 (mk_byte z).

Definition write_summary (ev : bus_event) : option (Z * list Z) :=
  match ev with
  | BusWrite (p :: data) => Some (byte_val p, byte_val <$> data)
  | _ => None
  end.

Definition new_events (s s' : MCP960X) : list bus_event :=
  drop (length (log (i2c s))) (log (i2c s')).

Definition limits_of (limits_data : list byte) : list Q :=
  map (fun i => (inject_Z (word16 (byte_val (nth i limits_data x00))
                                  (byte_val (nth (i + 1) limits_data x00)))
                 * (1 # 16))%Q)
      [0; 2; 4; 6]%nat.

(** The letters [set_thermocouple_type] knows, and the channels a selector
    of [get_alerts] stands for; an integer stands for none. *)
Definition thermocouple_letters : list string :=
  ["K"; "J"; "T"; "N"; "S"; "E"; "B"; "R"]%string.

Definition selector_items (sel : selector) : option (list Z) :=
  match sel with
  | PyNone => Some [1; 2; 3; 4]
  | PyList l => Some l
  | PyRange lo hi => Some (map (fun k => lo + Z.of_nat k) (seq 0 (Z.to_nat (hi - lo))))
  | PyInt _ => None
  end.

(** * Properties *)

(** ** Bytes *)

Lemma byte_val_range (b : byte) : 0 <= byte_val b < 256.
Proof.
  unfold byte_val. pose proof (Byte.to_N_bounded b) as H. lia.
Qed.

Lemma mk_byte_val (b : byte) : mk_byte (byte_val b) = Some b.
Proof.
  unfold mk_byte. pose proof (byte_val_range b) as H.
  replace (0 <=? byte_val b) with true by (symmetry; apply Z.leb_le; lia).
  replace (byte_val b <? 256) with true by (symmetry; apply Z.ltb_lt; lia).
  cbn. unfold byte_val. rewrite N2Z.id. apply Byte.of_to_N.
Qed.

Lemma mk_byte_Some (z : Z) (b : byte) : mk_byte z = Some b -> byte_val b = z.
Proof.
  unfold mk_byte, byte_val.
  destruct (0 <=? z) eqn:H0; [|discriminate].
  destruct (z <? 256); [|discriminate]. cbn.
  intros H. apply Byte.to_of_N in H. rewrite H. apply Z.leb_le in H0. lia.
Qed.

Lemma mk_byte_in_range (z : Z) :
  0 <= z < 256 -> exists b, mk_byte z = Some b /\ byte_val b = z.
Proof.
  intros Hz. destruct (mk_byte z) as [b|] eqn:E.
  - exists b. split; [reflexivity|]. now apply mk_byte_Some.
  - exfalso. unfold mk_byte in E.
    replace (0 <=? z) with true in E by (symmetry; apply Z.leb_le; lia).
    replace (z <? 256) with true in E by (symmetry; apply Z.ltb_lt; lia).
    cbn in E. apply Byte.of_N_None_iff in E. lia.
Qed.

Lemma mk_byte_out_of_range (z : Z) : ~ 0 <= z < 256 -> mk_byte z = None.
Proof.
  intros Hz. unfold mk_byte.
  destruct (0 <=? z) eqn:H0; [|reflexivity].
  destruct (z <? 256) eqn:H1; [|reflexivity].
  apply Z.leb_le in H0. apply Z.ltb_lt in H1. lia.
Qed.

(** ** Register words *)

Lemma testbit_small (a n k : Z) :
  0 <= a < 2 ^ k -> k <= n -> Z.testbit a n = false.
Proof.
  intros Ha Hn.
  destruct (Z.eq_dec a 0) as [->|Hne]; [apply Z.bits_0|].
  apply Z.bits_above_log2; [lia|].
  assert (Z.log2 a < k); [|lia].
  apply Z.log2_lt_pow2; lia.
Qed.

Lemma lor_shiftl (hi lo k : Z) :
  0 <= k -> 0 <= lo < 2 ^ k -> Z.lor (Z.shiftl hi k) lo = 2 ^ k * hi + lo.
Proof.
  intros Hk Hlo.
  pose proof (Zbitwise.Z.add_lor_land (Z.shiftl hi k) lo) as Hadd.
  assert (Z.land (Z.shiftl hi k) lo = 0) as Hland.
  { apply Z.bits_inj'. intros n Hn.
    rewrite Z.land_spec, Z.bits_0.
    destruct (Z.lt_ge_cases n k).
    - rewrite Z.shiftl_spec_low by lia. reflexivity.
    - rewrite (testbit_small lo n k) by lia. apply andb_false_r. }
  rewrite Hland, Z.shiftl_mul_pow2 in Hadd by lia.
  rewrite Z.shiftl_mul_pow2 by lia. lia.
Qed.

Lemma lor_shiftl8 (hi lo : Z) :
  0 <= lo < 256 -> Z.lor (Z.shiftl hi 8) lo = 256 * hi + lo.
Proof. intros Hlo. now rewrite lor_shiftl by (change (2 ^ 8) with 256; lia). Qed.

Lemma sign_bit_test (u : Z) :
  0 <= u < 65536 -> truthy (Z.land u 0x8000) = (32768 <=? u).
Proof.
  intros Hu. unfold truthy.
  destruct (32768 <=? u) eqn:E.
  - apply Z.leb_le in E.
    assert (Z.testbit u 15 = true) as Hb.
    { apply Z.testbit_true; [lia|]. change (2 ^ 15) with 32768.
      assert (u / 32768 = 1) as ->
        by (symmetry; apply Z.div_unique with (r := u - 32768); lia).
      reflexivity. }
    destruct (Z.land u 32768 =? 0) eqn:E0; [|reflexivity].
    apply Z.eqb_eq in E0.
    assert (Z.testbit (Z.land u 32768) 15 = true) as Hc.
    { rewrite Z.land_spec, Hb. reflexivity. }
    rewrite E0, Z.bits_0 in Hc. discriminate.
  - apply Z.leb_gt in E.
    assert (Z.land u 32768 = 0) as ->; [|reflexivity].
    apply Z.bits_inj'. intros n Hn.
    rewrite Z.land_spec, Z.bits_0.
    destruct (Z.eq_dec n 15) as [->|Hne].
    + rewrite (testbit_small u 15 15) by (change (2 ^ 15) with 32768; lia).
      reflexivity.
    + change 32768 with (2 ^ 15).
      rewrite Z.pow2_bits_false by lia. apply andb_false_r.
Qed.

Lemma word16_twos_complement (hi lo : byte) :
  word16 (byte_val hi) (byte_val lo) = twos_complement16 hi lo.
Proof.
  pose proof (byte_val_range hi). pose proof (byte_val_range lo).
  unfold word16, twos_complement16. cbv zeta.
  rewrite lor_shiftl8 by lia.
  rewrite sign_bit_test by lia.
  reflexivity.
Qed.

Lemma word16_split (w : Z) :
  0 <= w < 65536 ->
  word16 (Z.land (Z.shiftr w 8) 0xFF) (Z.land w 0xFF) =
  if 32768 <=? w then w - 65536 else w.
Proof.
  intros Hw.
  change 0xFF with (Z.ones 8). rewrite !Z.land_ones by lia.
  rewrite Z.shiftr_div_pow2 by lia. change (2 ^ 8) with 256.
  assert (0 <= w / 256 < 256) as Hq by (split; [apply Z.div_pos|apply Z.div_lt_upper_bound]; lia).
  rewrite (Z.mod_small (w / 256)) by lia.
  pose proof (Z.mod_pos_bound w 256 ltac:(lia)) as Hr.
  unfold word16. cbv zeta.
  rewrite lor_shiftl8 by lia.
  rewrite <- Z.div_mod by lia.
  now rewrite sign_bit_test by lia.
Qed.

(** ** Alert limits *)

Lemma limit_word_counts (k : Z) :
  limit_word (inject_Z k * (1 # 16))%Q =
  if k <? 0 then Z.lor (Z.abs k) 0x8000 else Z.abs k.
Proof.
  unfold limit_word, int, Qle_bool. cbn.
  change (Z.pos (1 * 16 * 1)) with 16. change (0 * Z.pos (1 * 16)) with 0.
  rewrite !Z.mul_1_r, Z.quot_mul by lia.
  destruct (k <? 0) eqn:E.
  - apply Z.ltb_lt in E. now replace (0 <=? k) with false by (symmetry; apply Z.leb_gt; lia).
  - apply Z.ltb_ge in E. now replace (0 <=? k) with true by (symmetry; apply Z.leb_le; lia).
Qed.

Lemma limit_counts_nonneg (k : Z) :
  0 <= k < 32768 -> limit_counts (inject_Z k * (1 # 16))%Q = k.
Proof.
  intros Hk. unfold limit_counts, limit_hi, limit_lo.
  rewrite limit_word_counts.
  replace (k <? 0) with false by (symmetry; apply Z.ltb_ge; lia).
  rewrite Z.abs_eq by lia.
  rewrite word16_split by lia.
  now replace (32768 <=? k) with false by (symmetry; apply Z.leb_gt; lia).
Qed.

Lemma limit_counts_neg (m : Z) :
  0 < m < 32768 -> limit_counts (inject_Z (- m) * (1 # 16))%Q = m - 32768.
Proof.
  intros Hm. unfold limit_counts, limit_hi, limit_lo.
  rewrite limit_word_counts.
  replace (- m <? 0) with true by (symmetry; apply Z.ltb_lt; lia).
  rewrite Z.abs_neq, Z.opp_involutive by lia.
  assert (Z.lor m 0x8000 = m + 32768) as ->.
  { rewrite Z.lor_comm.
    pose proof (lor_shiftl 1 m 15) as H. change (2 ^ 15) with 32768 in H.
    change (Z.shiftl 1 15) with 32768 in H. lia. }
  rewrite word16_split by lia.
  replace (32768 <=? m + 32768) with true by (symmetry; apply Z.leb_le; lia).
  lia.
Qed.

(** ** The bus *)

Lemma dev_read_length (d : device) (n : nat) : length (dev_read d n) = n.
Proof.
  unfold dev_read.
  rewrite length_take, length_app, length_replicate. lia.
Qed.

Lemma dev_read_1 (d : device) : dev_read d 1 = [cur_byte d].
Proof.
  unfold dev_read, cur_byte, dev_stream.
  destruct (reg_bytes d (pointer d)); reflexivity.
Qed.

Lemma dev_read_6 (d : device) :
  exists b0 b1 b2 b3 b4 b5, dev_read d 6 = [b0; b1; b2; b3; b4; b5].
Proof.
  pose proof (dev_read_length d 6) as H.
  destruct (dev_read d 6) as [|b0 [|b1 [|b2 [|b3 [|b4 [|b5 [|]]]]]]];
    try discriminate.
  now exists b0, b1, b2, b3, b4, b5.
Qed.

(** ** Running the monad *)

Arguments dev_read : simpl never.
Arguments mk_byte : simpl never.
Arguments word16 : simpl never.
Arguments dict_get : simpl never.
Arguments str : simpl never.

Ltac munfold :=
  unfold _write_pointer, _read_bytes, i2c_writeto, bytes, getitem, qitem,
    dict_subscript, discard, bind, ret, raise, get_self, set_i2c,
    set_adc_resolution, set_cold_junction_res, set_dev_id, readfrom_into,
    writeto, with_i2c in *;
  unfold REG_HOT_JUNCTION, REG_STATUS, REG_THERMO_CONFIG, REG_DEVICE_CONFIG,
    REG_ALERT_CONFIG, REG_ALERT_HYSTERESIS, REG_ALERT_LIMIT, REG_DEVICE_ID
    in *.

Lemma bind_Ok_inv {A B} (m : M A) (k : A -> M B) s b s' :
  bind m k s = (Ok b, s') ->
  exists a s1, m s = (Ok a, s1) /\ k a s1 = (Ok b, s').
Proof.
  unfold bind. destruct (m s) as [[a|e] s1]; [|discriminate].
  intros H. now exists a, s1.
Qed.

Lemma adc_step_table (bits : Z) :
  dict_get Z.eqb [(12, 1%Q); (14, (1 # 4)%Q); (16, (1 # 16)%Q); (18, (1 # 16)%Q)]
           bits (1 # 16)%Q = adc_step bits.
Proof.
  unfold dict_get, dict_find, adc_step.
  destruct (bits =? 12); [reflexivity|].
  destruct (bits =? 14); [reflexivity|].
  destruct (bits =? 16); [reflexivity|].
  destruct (bits =? 18); reflexivity.
Qed.

(** ** Alert limits, continued *)

(** C1, at the limit -37.5 on channel 1: [set_alert] sends the word 0x8258
    (magnitude 600 with bit 15 set), [read_all_alerts] reads that word as the
    two's-complement count -32168 and returns -2010.5, so the limit that was
    set does not read back. *)
Theorem negative_limit_does_not_read_back :
  limit_word (- (75 # 2))%Q = 0x8258 /\
  limit_counts (- (75 # 2))%Q = -32168 /\
  (exists s1 r s2 q,
      set_alert 1 true (- (75 # 2))%Q 10 "TH" true false "comparator" false
                sample_handle = (Ok tt, s1) /\
      read_all_alerts s1 = (Ok r, s2) /\
      limits r !! 0%nat = Some q /\ (q == - (4021 # 2))%Q) /\
  ~ limit_reads_back 1 (- (75 # 2))%Q sample_handle.
Proof.
  split; [reflexivity|]. split; [reflexivity|]. split.
  - eexists _, _, _, _.
    split; [vm_compute; reflexivity|].
    split; [vm_compute; reflexivity|].
    split; [vm_compute; reflexivity|]. reflexivity.
  - intros (s1 & r & s2 & q & H1 & H2 & H3 & H4).
    vm_compute in H1. injection H1 as <-.
    vm_compute in H2. injection H2 as <- <-.
    vm_compute in H3. injection H3 as <-.
    vm_compute in H4. discriminate.
Qed.

(** ** Temperature registers *)

(** C2: [read_temperatures] selects register 0x00, reads six bytes in one
    transaction and returns each pair as a big-endian 16-bit two's-complement
    count, times the ADC step (1 at 12 bits, 0.25 at 14, 0.0625 at 16 and 18)
    for the hot junction and the delta, and times the cached cold-junction
    resolution alone for the cold junction; on the sample device at 18 bits
    the words 0x0140 and 0xFF38 give 20 and -12.5 degrees. *)
Theorem read_temperatures_decodes :
  (forall s : MCP960X, exists b0 b1 b2 b3 b4 b5,
      let d := Device 0 (regs (dev (i2c s))) in
      dev_read d 6 = [b0; b1; b2; b3; b4; b5] /\
      read_temperatures s =
        (Ok (Temps
               (inject_Z (twos_complement16 b0 b1) * adc_step (_adc_resolution s))%Q
               (inject_Z (twos_complement16 b2 b3) * adc_step (_adc_resolution s))%Q
               (inject_Z (twos_complement16 b4 b5) * _cold_junction_res s)%Q),
         with_i2c s (Bus d (log (i2c s) ++
                            [BusWrite [x00];
                             BusRead [b0; b1; b2; b3; b4; b5]])))) /\
  (adc_step 12 = 1%Q /\ adc_step 14 = (1 # 4)%Q /\
   adc_step 16 = (1 # 16)%Q /\ adc_step 18 = (1 # 16)%Q) /\
  (twos_complement16 x01 x40 = 320 /\ twos_complement16 xff x38 = -200) /\
  (exists r s', read_temperatures sample_handle = (Ok r, s') /\
                (T_H r == 20)%Q /\ (T_delta r == - (25 # 2))%Q).
Proof.
  split; [|split; [|split]].
  - intros s.
    destruct (dev_read_6 (Device 0 (regs (dev (i2c s)))))
      as (b0 & b1 & b2 & b3 & b4 & b5 & E).
    exists b0, b1, b2, b3, b4, b5. cbv zeta. split; [exact E|].
    destruct s as [[d l] a t r c i].
    unfold read_temperatures, temps_loop. munfold. cbn in E |- *.
    change (mk_byte 0) with (Some x00). cbn.
    rewrite E. cbn.
    rewrite !word16_twos_complement, adc_step_table, <- app_assoc.
    reflexivity.
  - repeat split.
  - split; reflexivity.
  - eexists _, _. split; [vm_compute; reflexivity|]. split; reflexivity.
Qed.

(** ** The cached resolution fields *)

Create HintDb frame.

Lemma keeps_ret {A} (a : A) : keeps_cache (ret a).
Proof. intros s. reflexivity. Qed.

Lemma keeps_raise {A} (e : exn) : keeps_cache (@raise A e).
Proof. intros s. reflexivity. Qed.

Lemma keeps_bind {A B} (m : M A) (k : A -> M B) :
  keeps_cache m -> (forall a, keeps_cache (k a)) -> keeps_cache (bind m k).
Proof.
  intros Hm Hk s. unfold bind. specialize (Hm s).
  destruct (m s) as [[a|e] s1]; cbn in Hm |- *.
  - now rewrite Hk.
  - exact Hm.
Qed.

Lemma keeps_get_self : keeps_cache get_self.
Proof. intros s. reflexivity. Qed.

Lemma keeps_set_i2c (b : I2C) : keeps_cache (set_i2c b).
Proof. intros s. reflexivity. Qed.

Lemma keeps_set_dev_id (v : Z) : keeps_cache (set_dev_id v).
Proof. intros s. reflexivity. Qed.

Lemma keeps_bytes (l : list Z) : keeps_cache (bytes l).
Proof. intros s. unfold bytes. now destruct (mapM mk_byte l). Qed.

Lemma keeps_getitem (data : list byte) (i : nat) : keeps_cache (getitem data i).
Proof. intros s. unfold getitem. now destruct (data !! i). Qed.

Lemma keeps_qitem (l : list Q) (i : nat) : keeps_cache (qitem l i).
Proof. intros s. unfold qitem. now destruct (l !! i). Qed.

Lemma keeps_dict_subscript {K V} (eqb : K -> K -> bool) (d : list (K * V)) k :
  keeps_cache (dict_subscript eqb d k).
Proof. intros s. unfold dict_subscript. now destruct (dict_find eqb d k). Qed.

Lemma keeps_iter (v : selector) : keeps_cache (iter v).
Proof. intros s. now destruct v. Qed.

#[local] Hint Resolve keeps_ret keeps_raise keeps_get_self keeps_set_i2c
  keeps_set_dev_id keeps_bytes keeps_getitem keeps_qitem keeps_dict_subscript
  keeps_iter : frame.
#[local] Hint Extern 2 (keeps_cache (bind _ _)) =>
  apply keeps_bind; [|intros] : frame.
#[local] Hint Extern 2 (keeps_cache (if ?b then _ else _)) =>
  destruct b : frame.

Lemma keeps_i2c_writeto (buf : list byte) : keeps_cache (i2c_writeto buf).
Proof. unfold i2c_writeto. auto with frame. Qed.

Lemma keeps_write_pointer (p : Z) : keeps_cache (_write_pointer p).
Proof. unfold _write_pointer. pose proof keeps_i2c_writeto. auto with frame. Qed.

Lemma keeps_read_bytes (n : nat) : keeps_cache (_read_bytes n).
Proof.
  unfold _read_bytes. apply keeps_bind; [auto with frame|]. intros s.
  destruct (readfrom_into (i2c s) n). auto with frame.
Qed.

#[local] Hint Resolve keeps_i2c_writeto keeps_write_pointer keeps_read_bytes
  : frame.

Lemma keeps_temps_loop data adc_lsb cold_lsb range temps :
  keeps_cache (temps_loop data adc_lsb cold_lsb range temps).
Proof.
  revert temps. induction range as [|i range IH]; intros temps; cbn;
    auto 10 with frame.
Qed.

Lemma keeps_limits_loop data range limits :
  keeps_cache (limits_loop data range limits).
Proof.
  revert limits. induction range as [|i range IH]; intros limits; cbn;
    auto 10 with frame.
Qed.

Lemma keeps_alerts_loop status items result :
  keeps_cache (alerts_loop status items result).
Proof.
  revert result. induction items as [|c items IH]; intros result; cbn;
    auto with frame.
Qed.

#[local] Hint Resolve keeps_temps_loop keeps_limits_loop keeps_alerts_loop
  : frame.

Lemma keeps_run (c : call) : keeps_cache (run c).
Proof.
  destruct c; cbn [run]; unfold discard.
  - unfold get_device_id_and_revision. auto 20 with frame.
  - unfold set_thermocouple_type. auto 20 with frame.
  - unfold set_filter_coefficient. auto 20 with frame.
  - unfold read_temperatures. auto 20 with frame.
  - unfold set_power_mode. auto 20 with frame.
  - unfold read_all_alerts. auto 20 with frame.
  - unfold set_alert. auto 20 with frame.
  - unfold get_status. auto 20 with frame.
  - unfold get_alerts. auto 20 with frame.
Qed.

(** ** Resolution *)

Lemma adc_fallback (adc : Z) :
  (if negb (dict_in Z.eqb ADC_RESOLUTIONS adc) then 18 else adc) =
  (if valid_adc_bits adc then adc else 18).
Proof.
  unfold valid_adc_bits, dict_in, ADC_RESOLUTIONS. cbn [dict_find].
  destruct (adc =? 12); [reflexivity|].
  destruct (adc =? 14); [reflexivity|].
  destruct (adc =? 16); [reflexivity|].
  destruct (adc =? 18); reflexivity.
Qed.

Lemma cold_fallback (cold : Q) :
  (if negb (dict_in Qeq_bool COLD_JUNCTION_RES cold) then (1 # 16)%Q else cold) =
  (if valid_cold_res cold then cold else (1 # 16)%Q).
Proof.
  unfold valid_cold_res, dict_in, COLD_JUNCTION_RES. cbn [dict_find].
  destruct (Qeq_bool cold (1 # 16)); [reflexivity|].
  destruct (Qeq_bool cold (1 # 4)); reflexivity.
Qed.

Lemma adc_lookup (adc : Z) :
  let adc' := if valid_adc_bits adc then adc else 18 in
  exists code, dict_find Z.eqb ADC_RESOLUTIONS adc' = Some code /\
    ((code = 3 /\ adc' = 12) \/ (code = 2 /\ adc' = 14) \/
     (code = 1 /\ adc' = 16) \/ (code = 0 /\ adc' = 18)).
Proof.
  unfold valid_adc_bits, ADC_RESOLUTIONS.
  destruct (Z.eqb_spec adc 12) as [->|H12]; [exists 3; cbn; tauto|].
  destruct (Z.eqb_spec adc 14) as [->|H14]; [exists 2; cbn; tauto|].
  destruct (Z.eqb_spec adc 16) as [->|H16]; [exists 1; cbn; tauto|].
  destruct (Z.eqb_spec adc 18) as [->|H18]; exists 0; cbn; tauto.
Qed.

Lemma cold_lookup (cold : Q) :
  let cold' := if valid_cold_res cold then cold else (1 # 16)%Q in
  exists c, dict_find Qeq_bool COLD_JUNCTION_RES cold' = Some c /\
    ((c = 0 /\ (cold' == 1 # 16)%Q) \/ (c = 1 /\ (cold' == 1 # 4)%Q)).
Proof.
  unfold valid_cold_res, COLD_JUNCTION_RES. cbn [dict_find].
  destruct (Qeq_bool cold (1 # 16)) eqn:E16; cbn [orb].
  { exists 0. rewrite E16. split; [reflexivity|]. left. split; [reflexivity|].
    now apply Qeq_bool_iff. }
  destruct (Qeq_bool cold (1 # 4)) eqn:E4.
  { exists 1. rewrite E16, E4. split; [reflexivity|]. right. split; [reflexivity|].
    now apply Qeq_bool_iff. }
  exists 0. split; [reflexivity|]. left. split; reflexivity.
Qed.

Lemma set_resolution_run (adc : Z) (cold : Q) (s : MCP960X) :
  let adc' := if valid_adc_bits adc then adc else 18 in
  let cold' := if valid_cold_res cold then cold else (1 # 16)%Q in
  exists b,
    set_resolution adc cold s =
      (Ok tt,
       Handle (Bus (Device 6 (<[6 := [b]]> (regs (dev (i2c s)))))
                   (log (i2c s) ++ [BusWrite [x06; b]]))
              (address s) (_t_stretch s) adc' cold' (dev_id s)) /\
    config_adc_bits (byte_val b) = adc' /\
    (config_cold_res (byte_val b) == cold')%Q /\
    Z.land (byte_val b) 0x03 = 0.
Proof.
  intros adc' cold'.
  destruct (adc_lookup adc) as (code & Hcode & Hadc).
  destruct (cold_lookup cold) as (c & Hc & Hcold).
  fold adc' in Hcode, Hadc. fold cold' in Hc, Hcold.
  destruct s as [[d l] a t r0 c0 i].
  unfold set_resolution. rewrite adc_fallback, cold_fallback.
  fold adc' cold'. munfold. rewrite Hcode, Hc. cbn.
  destruct Hadc as [[-> ->]|[[-> ->]|[[-> ->]|[-> ->]]]];
    destruct Hcold as [[-> Hq]|[-> Hq]];
    (eexists; split; [vm_compute (mk_byte _); cbn; reflexivity|]);
    (split; [reflexivity|]); (split; [symmetry; exact Hq|reflexivity]).
Qed.

(** ** Bit fields of a byte *)

Lemma lt_pow2_of_bits (a k : Z) :
  0 <= a -> 0 <= k -> (forall n, k <= n -> Z.testbit a n = false) -> a < 2 ^ k.
Proof.
  intros Ha Hk Hbits.
  destruct (Z.eq_dec a 0) as [->|Hne]; [apply Z.pow_pos_nonneg; lia|].
  destruct (Z.lt_ge_cases a (2 ^ k)) as [|Hge]; [assumption|exfalso].
  apply Z.log2_le_pow2 in Hge; [|lia].
  pose proof (Z.bit_log2 a ltac:(lia)) as Hb.
  rewrite Hbits in Hb by assumption. discriminate.
Qed.

Lemma lor_byte (a b : Z) :
  0 <= a < 256 -> 0 <= b < 256 -> 0 <= Z.lor a b < 256.
Proof.
  intros Ha Hb. split; [apply Z.lor_nonneg; lia|].
  change 256 with (2 ^ 8). apply lt_pow2_of_bits; [apply Z.lor_nonneg; lia|lia|].
  intros n Hn. rewrite Z.lor_spec.
  now rewrite (testbit_small a n 8), (testbit_small b n 8) by (change (2 ^ 8) with 256; lia).
Qed.

Lemma land_byte (a m : Z) : 0 <= a < 256 -> 0 <= Z.land a m < 256.
Proof.
  intros Ha. split; [apply Z.land_nonneg; lia|].
  change 256 with (2 ^ 8). apply lt_pow2_of_bits; [apply Z.land_nonneg; lia|lia|].
  intros n Hn. rewrite Z.land_spec.
  now rewrite (testbit_small a n 8) by (change (2 ^ 8) with 256; lia).
Qed.

Lemma field_of_lor (x keep field v : Z) :
  Z.land keep field = 0 -> Z.land v field = v ->
  Z.land (Z.lor (Z.land x keep) v) field = v.
Proof.
  intros Hk Hv.
  now rewrite Z.land_lor_distr_l, <- Z.land_assoc, Hk, Z.land_0_r, Hv.
Qed.

Lemma set_power_mode_run (mode : string) (s : MCP960X) :
  let cur := cur_byte (dev (i2c s)) in
  exists b,
    set_power_mode mode s =
      (Ok tt,
       with_i2c s (Bus (Device 6 (<[6 := [b]]> (regs (dev (i2c s)))))
                       (log (i2c s) ++ [BusRead [cur]; BusWrite [x06; b]]))) /\
    byte_val b = Z.lor (Z.land (byte_val cur) 0xFC) (power_mode_code mode).
Proof.
  intros cur.
  assert (0 <= power_mode_code mode < 256 /\
          (if String.eqb mode "shutdown"
           then Z.lor (Z.land (byte_val cur) 0xFC) 1
           else if String.eqb mode "burst"
                then Z.lor (Z.land (byte_val cur) 0xFC) 2
                else Z.land (byte_val cur) 0xFC) =
          Z.lor (Z.land (byte_val cur) 0xFC) (power_mode_code mode)) as [Hm Hcfg].
  { unfold power_mode_code.
    destruct (String.eqb mode "shutdown"); [split; [lia|reflexivity]|].
    destruct (String.eqb mode "burst"); [split; [lia|reflexivity]|].
    split; [lia|]. now rewrite Z.lor_0_r. }
  destruct (mk_byte_in_range (Z.lor (Z.land (byte_val cur) 0xFC) (power_mode_code mode)))
    as (b & Hb & Hv).
  { apply lor_byte; [apply land_byte, byte_val_range|exact Hm]. }
  exists b. split; [|exact Hv].
  destruct s as [[d l] a t r c i]. subst cur. cbn [dev i2c] in *.
  unfold set_power_mode. munfold. cbn. rewrite dev_read_1. cbn.
  rewrite Hcfg. change (mk_byte 6) with (Some x06). rewrite Hb. cbn.
  now rewrite <- app_assoc.
Qed.

Lemma thermocouple_code_range (k : string) (code : Z) :
  dict_find String.eqb THERMOCOUPLE_TYPES k = Some code -> 0 <= code <= 7.
Proof.
  unfold THERMOCOUPLE_TYPES. cbn [dict_find].
  repeat match goal with
         | |- context [String.eqb k ?t] => destruct (String.eqb k t)
         end; intros [= <-] || discriminate; lia.
Qed.

Lemma shiftl4_range (code : Z) : 0 <= code <= 7 -> 0 <= Z.shiftl code 4 < 256.
Proof. intros H. rewrite Z.shiftl_mul_pow2 by lia. change (2 ^ 4) with 16. lia. Qed.

Lemma set_thermocouple_type_run (type_char : string) (code : Z) (s : MCP960X) :
  dict_find String.eqb THERMOCOUPLE_TYPES (upper type_char) = Some code ->
  let cur := cur_byte (dev (i2c s)) in
  exists b,
    set_thermocouple_type type_char s =
      (Ok tt,
       with_i2c s (Bus (Device 5 (<[5 := [b]]> (regs (dev (i2c s)))))
                       (log (i2c s) ++ [BusRead [cur]; BusWrite [x05; b]]))) /\
    byte_val b = Z.lor (Z.land (byte_val cur) 0x8F) (Z.shiftl code 4).
Proof.
  intros Hcode cur.
  destruct (mk_byte_in_range (Z.lor (Z.land (byte_val cur) 0x8F) (Z.shiftl code 4)))
    as (b & Hb & Hv).
  { apply lor_byte; [apply land_byte, byte_val_range|].
    eapply shiftl4_range, thermocouple_code_range, Hcode. }
  exists b. split; [|exact Hv].
  destruct s as [[d l] a t r c i]. subst cur. cbn [dev i2c] in *.
  unfold set_thermocouple_type. munfold. rewrite Hcode. cbn.
  rewrite dev_read_1. cbn. change (mk_byte 5) with (Some x05). rewrite Hb. cbn.
  now rewrite <- app_assoc.
Qed.

Lemma set_thermocouple_type_unknown (type_char : string) (s : MCP960X) :
  dict_find String.eqb THERMOCOUPLE_TYPES (upper type_char) = None ->
  set_thermocouple_type type_char s =
    (Raise KeyError,
     with_i2c s (Bus (dev (i2c s))
                     (log (i2c s) ++ [BusRead [cur_byte (dev (i2c s))]]))).
Proof.
  intros Hcode. destruct s as [[d l] a t r c i].
  unfold set_thermocouple_type. munfold. rewrite Hcode. cbn.
  now rewrite dev_read_1.
Qed.

Lemma set_filter_coefficient_run (n : Z) (s : MCP960X) :
  0 <= n ->
  let cur := cur_byte (dev (i2c s)) in
  exists b,
    set_filter_coefficient n s =
      (Ok tt,
       with_i2c s (Bus (Device 5 (<[5 := [b]]> (regs (dev (i2c s)))))
                       (log (i2c s) ++ [BusRead [cur]; BusWrite [x05; b]]))) /\
    byte_val b = Z.lor (Z.land (byte_val cur) 0xF8) (Z.min n 7).
Proof.
  intros Hn cur.
  destruct (mk_byte_in_range (Z.lor (Z.land (byte_val cur) 0xF8) (Z.min n 7)))
    as (b & Hb & Hv).
  { apply lor_byte; [apply land_byte, byte_val_range|lia]. }
  exists b. split; [|exact Hv].
  destruct s as [[d l] a t r c i]. subst cur. cbn [dev i2c] in *.
  unfold set_filter_coefficient. munfold. cbn. rewrite dev_read_1. cbn.
  change (mk_byte 5) with (Some x05). rewrite Hb. cbn.
  now rewrite <- app_assoc.
Qed.

Lemma set_filter_coefficient_negative (n : Z) (s : MCP960X) :
  n < 0 ->
  set_filter_coefficient n s =
    (Raise (ValueError "bytes must be in range(0, 256)"),
     with_i2c s (Bus (dev (i2c s))
                     (log (i2c s) ++ [BusRead [cur_byte (dev (i2c s))]]))).
Proof.
  intros Hn.
  assert (mk_byte (Z.lor (Z.land (byte_val (cur_byte (dev (i2c s)))) 0xF8)
                         (Z.min n 7)) = None) as Hb.
  { apply mk_byte_out_of_range. intros [H0 _].
    apply Z.lor_nonneg in H0. lia. }
  destruct s as [[d l] a t r c i]. cbn [dev i2c] in *.
  unfold set_filter_coefficient. munfold. cbn. rewrite dev_read_1. cbn.
  change (mk_byte 5) with (Some x05). rewrite Hb. reflexivity.
Qed.

Lemma min7_field (n : Z) : 0 <= n -> Z.land (Z.min n 7) 0x07 = Z.min n 7.
Proof.
  intros Hn. assert (Z.min n 7 = 0 \/ Z.min n 7 = 1 \/ Z.min n 7 = 2 \/
                     Z.min n 7 = 3 \/ Z.min n 7 = 4 \/ Z.min n 7 = 5 \/
                     Z.min n 7 = 6 \/ Z.min n 7 = 7) as H by lia.
  repeat destruct H as [H|H]; rewrite H; reflexivity.
Qed.

Lemma reg_byte_insert (regs0 : gmap Z (list byte)) (p r : Z) (b : byte) :
  reg_byte (Device p (<[r := [b]]> regs0)) r = Some (byte_val b).
Proof. unfold reg_byte. cbn. now rewrite lookup_insert_eq. Qed.

(** ** Thermocouple type *)

Lemma set_thermocouple_type_at_pointer (type_char : string) (code old : Z)
    (s : MCP960X) :
  dict_find String.eqb THERMOCOUPLE_TYPES (upper type_char) = Some code ->
  pointer (dev (i2c s)) = REG_THERMO_CONFIG ->
  reg_byte (dev (i2c s)) REG_THERMO_CONFIG = Some old ->
  writes_type_keeps_rest type_char code s.
Proof.
  intros Hcode Hp Hold.
  destruct (set_thermocouple_type_run type_char code s Hcode) as (b & Hrun & Hb).
  eexists _, old, (byte_val b). split; [exact Hrun|]. split; [exact Hold|].
  split; [apply reg_byte_insert|].
  rewrite Hb. f_equal. f_equal.
  unfold cur_byte, reg_bytes. rewrite Hp.
  unfold reg_byte in Hold.
  destruct (regs (dev (i2c s)) !! REG_THERMO_CONFIG) as [[|b0 bs]|];
    try discriminate.
  now injection Hold as <-.
Qed.

(** C3, after [set_resolution(18, 0.25)] has left the register pointer on the
    device-config register: [set_thermocouple_type('J')] reads 0x80 from that
    register, not 0x07 from the thermocouple-config register, and writes
    0x90; the filter bits 0-2 go from 7 to 0 and bit 7 from 0 to 1, where
    keeping them gives 0x17. *)
Theorem thermocouple_type_write_takes_selected_register :
  exists s1 s2,
    set_resolution 18 (1 # 4)%Q sample_handle = (Ok tt, s1) /\
    set_thermocouple_type "J" s1 = (Ok tt, s2) /\
    reg_byte (dev (i2c s1)) REG_THERMO_CONFIG = Some 0x07 /\
    reg_byte (dev (i2c s1)) REG_DEVICE_CONFIG = Some 0x80 /\
    reg_byte (dev (i2c s2)) REG_THERMO_CONFIG = Some 0x90 /\
    ~ writes_type_keeps_rest "J" 1 s1.
Proof.
  eexists _, _.
  split; [vm_compute; reflexivity|].
  split; [vm_compute; reflexivity|].
  split; [reflexivity|]. split; [reflexivity|]. split; [reflexivity|].
  intros (s' & old & new & H1 & H2 & H3 & H4).
  vm_compute in H1. injection H1 as <-.
  vm_compute in H2. injection H2 as <-.
  vm_compute in H3. injection H3 as <-.
  vm_compute in H4. discriminate.
Qed.

(** ** Power mode *)

Lemma power_mode_bits_insert (regs0 : gmap Z (list byte)) (p : Z) (b : byte) :
  power_mode_bits (Device p (<[6 := [b]]> regs0)) = Some (Z.land (byte_val b) 0x03).
Proof.
  unfold power_mode_bits, REG_DEVICE_CONFIG.
  now rewrite reg_byte_insert.
Qed.

Lemma set_power_mode_bits (mode : string) (s : MCP960X) :
  exists s', set_power_mode mode s = (Ok tt, s') /\
             power_mode_bits (dev (i2c s')) = Some (power_mode_code mode).
Proof.
  destruct (set_power_mode_run mode s) as (b & Hrun & Hb).
  eexists. split; [exact Hrun|]. cbn [with_i2c i2c dev].
  rewrite power_mode_bits_insert, Hb. f_equal.
  apply field_of_lor; [reflexivity|].
  unfold power_mode_code.
  destruct (String.eqb mode "shutdown"); [reflexivity|].
  destruct (String.eqb mode "burst"); reflexivity.
Qed.

(** C5 as stated fails on a device in shutdown mode whose pointer is on the
    device-config register: a call with the mode 'sleep' changes bits 0-1
    from 01 to 00. *)
Lemma unrecognized_mode_clears_power_bits :
  ~ power_mode_untouched "sleep" (snd (set_power_mode "shutdown" sample_handle)).
Proof. unfold power_mode_untouched. vm_compute. discriminate. Qed.

(** C5, amended: a mode other than 'shutdown' and 'burst', recognised or
    not, is handled as 'normal' is: the call succeeds, the byte written to
    the device-config register is the byte read masked with 0xFC, and so
    bits 0-1 of that register become 00. *)
Theorem unrecognized_mode_selects_normal (mode : string) (s : MCP960X) :
  mode <> "shutdown"%string -> mode <> "burst"%string ->
  set_power_mode mode s = set_power_mode "normal" s /\
  exists s' b,
    let cur := cur_byte (dev (i2c s)) in
    set_power_mode mode s = (Ok tt, s') /\
    s' = with_i2c s (Bus (Device 6 (<[6 := [b]]> (regs (dev (i2c s)))))
                         (log (i2c s) ++ [BusRead [cur]; BusWrite [x06; b]])) /\
    byte_val b = Z.land (byte_val cur) 0xFC /\
    reg_byte (dev (i2c s')) REG_DEVICE_CONFIG = Some (Z.land (byte_val cur) 0xFC) /\
    power_mode_bits (dev (i2c s')) = Some 0.
Proof.
  intros Hs Hb.
  apply String.eqb_neq in Hs. apply String.eqb_neq in Hb.
  split.
  - unfold set_power_mode. now rewrite Hs, Hb.
  - destruct (set_power_mode_run mode s) as (b & Hrun & Hval).
    unfold power_mode_code in Hval. rewrite Hs, Hb, Z.lor_0_r in Hval.
    eexists _, b. cbv zeta. split; [exact Hrun|]. split; [reflexivity|].
    split; [exact Hval|]. cbn [with_i2c i2c dev]. split.
    + unfold REG_DEVICE_CONFIG. now rewrite reg_byte_insert, Hval.
    + rewrite power_mode_bits_insert, Hval.
      now rewrite <- Z.land_assoc, Z.land_0_r.
Qed.

Lemma unrecognized_mode_selects_normal_witness :
  set_power_mode "sleep" sample_handle = set_power_mode "normal" sample_handle /\
  exists s' b,
    let cur := cur_byte (dev (i2c sample_handle)) in
    set_power_mode "sleep" sample_handle = (Ok tt, s') /\
    s' = with_i2c sample_handle
           (Bus (Device 6 (<[6 := [b]]> (regs (dev (i2c sample_handle)))))
                (log (i2c sample_handle) ++ [BusRead [cur]; BusWrite [x06; b]])) /\
    byte_val b = Z.land (byte_val cur) 0xFC /\
    reg_byte (dev (i2c s')) REG_DEVICE_CONFIG = Some (Z.land (byte_val cur) 0xFC) /\
    power_mode_bits (dev (i2c s')) = Some 0.
Proof.
  apply (unrecognized_mode_selects_normal "sleep" sample_handle); discriminate.
Defined.

(** ** Alert configuration *)

(** C6: with a channel number outside 1..4 [set_alert] stops at its
    assertion: the outcome is the error and the driver object, the bus log
    and the device behind it are what they were. *)
Theorem set_alert_rejects_channel (alert_num : Z) (enable : bool) (limit : Q)
    (hysteresis : Z) (monitor : string) (rising active_low : bool)
    (mode : string) (clear_interrupt : bool) (s : MCP960X) :
  ~ (1 <= alert_num <= 4) ->
  set_alert alert_num enable limit hysteresis monitor rising active_low mode
            clear_interrupt s = (Raise AssertionError, s).
Proof.
  intros H. unfold set_alert.
  destruct ((1 <=? alert_num) && (alert_num <=? 4)) eqn:E; [|reflexivity].
  apply andb_true_iff in E as [E1 E2].
  apply Z.leb_le in E1. apply Z.leb_le in E2. lia.
Qed.

Lemma set_alert_rejects_channel_witness :
  set_alert 5 true 150%Q 10 "TH" true false "comparator" false sample_handle
  = (Raise AssertionError, sample_handle).
Proof. apply set_alert_rejects_channel. lia. Defined.

(** ** Filter coefficient *)

(** C7 as stated fails at n = -1: the call raises and stores nothing. *)
Lemma negative_filter_coefficient_is_an_error :
  ~ stores_clamped_filter (-1) sample_handle.
Proof.
  intros (s' & H & _). vm_compute in H. discriminate.
Qed.

(** C7, amended: for n >= 0 the call succeeds and bits 0-2 of the byte it
    writes to the thermocouple-config register hold min(n, 7); for n = 9
    they hold 7. *)
Theorem filter_coefficient_clamped_above (n : Z) (s : MCP960X) :
  0 <= n ->
  stores_clamped_filter n s /\ clamp 0 7 n = Z.min n 7.
Proof.
  intros Hn. split; [|unfold clamp; lia].
  destruct (set_filter_coefficient_run n s Hn) as (b & Hrun & Hb).
  eexists. split; [exact Hrun|]. cbn [with_i2c i2c dev].
  unfold filter_field, REG_THERMO_CONFIG.
  rewrite reg_byte_insert. cbn [fmap option_fmap option_map]. f_equal.
  rewrite Hb, field_of_lor; [unfold clamp; lia|reflexivity|now apply min7_field].
Qed.

Lemma filter_coefficient_clamped_above_witness :
  stores_clamped_filter 9 sample_handle /\ clamp 0 7 9 = 7.
Proof. apply (filter_coefficient_clamped_above 9 sample_handle). lia. Defined.

(** ** Resolution and power mode *)

Lemma last_write_to_snoc (r : Z) (l : list bus_event) (p b : byte) :
  byte_val p = r -> last_write_to r (l ++ [BusWrite [p; b]]) = Some [b].
Proof.
  intros Hp. induction l as [|ev l IH]; cbn.
  - rewrite Hp, Z.eqb_refl. reflexivity.
  - now rewrite IH.
Qed.

Lemma set_resolution_consistent (adc : Z) (cold : Q) (s : MCP960X) :
  exists s',
    set_resolution adc cold s = (Ok tt, s') /\
    _adc_resolution s' = (if valid_adc_bits adc then adc else 18) /\
    _cold_junction_res s' = (if valid_cold_res cold then cold else (1 # 16)%Q) /\
    cache_consistent s' /\
    power_mode_bits (dev (i2c s')) = Some 0.
Proof.
  destruct (set_resolution_run adc cold s) as (b & Hrun & Ha & Hc & Hp).
  eexists. split; [exact Hrun|]. cbn [_adc_resolution _cold_junction_res].
  split; [reflexivity|]. split; [reflexivity|]. split.
  - exists b. cbn [i2c log _adc_resolution _cold_junction_res].
    split; [now apply last_write_to_snoc|]. split; assumption.
  - cbn [i2c dev]. now rewrite power_mode_bits_insert, Hp.
Qed.

(** C10: whatever its arguments and the state before, [set_resolution]
    succeeds and the byte it writes to the device-config register has bits
    0-1 equal to 00; in particular after [set_power_mode] has stored the bits
    of shutdown or burst, a [set_resolution] call leaves 00 there. *)
Theorem set_resolution_resets_power_mode :
  (forall (adc : Z) (cold : Q) (s : MCP960X), exists b,
      fst (set_resolution adc cold s) = Ok tt /\
      log (i2c (snd (set_resolution adc cold s))) =
        log (i2c s) ++ [BusWrite [x06; b]] /\
      Z.land (byte_val b) 0x03 = 0 /\
      power_mode_bits (dev (i2c (snd (set_resolution adc cold s)))) = Some 0) /\
  (forall (mode : string) (adc : Z) (cold : Q) (s : MCP960X), exists s1 s2,
      set_power_mode mode s = (Ok tt, s1) /\
      power_mode_bits (dev (i2c s1)) = Some (power_mode_code mode) /\
      set_resolution adc cold s1 = (Ok tt, s2) /\
      power_mode_bits (dev (i2c s2)) = Some 0) /\
  power_mode_code "shutdown" = 1 /\ power_mode_code "burst" = 2.
Proof.
  split; [|split; [|split; reflexivity]].
  - intros adc cold s.
    destruct (set_resolution_run adc cold s) as (b & Hrun & _ & _ & Hp).
    exists b. rewrite Hrun. cbn [fst snd i2c log dev].
    split; [reflexivity|]. split; [reflexivity|]. split; [exact Hp|].
    now rewrite power_mode_bits_insert, Hp.
  - intros mode adc cold s.
    destruct (set_power_mode_bits mode s) as (s1 & H1 & Hb1).
    destruct (set_resolution_consistent adc cold s1) as (s2 & H2 & _ & _ & _ & Hb2).
    now exists s1, s2.
Qed.

(** What [set_resolution] and the constructor establish: [set_resolution]
    always succeeds, caches the ADC bits and the cold-junction resolution it
    was given, or 18 and 0.0625 where they are not among the accepted values,
    and the device-config byte it has just written encodes the cached pair;
    a construction that completes ends in such a call, with 18 and 0.0625
    cached; no other public method changes the cached pair, whatever its
    outcome. *)
Theorem resolution_cache_invariant :
  (forall (adc : Z) (cold : Q) (s : MCP960X), exists s',
      set_resolution adc cold s = (Ok tt, s') /\
      _adc_resolution s' = (if valid_adc_bits adc then adc else 18) /\
      _cold_junction_res s' = (if valid_cold_res cold then cold else (1 # 16)%Q) /\
      cache_consistent s') /\
  (forall (bus : I2C) (addr : Z) (tctype : string) (tcfilter : Z) (cold : Q)
          (adc : Z) (s' : MCP960X),
      __init__ bus addr tctype tcfilter cold adc = (Ok tt, s') ->
      cache_consistent s' /\ cached s' = (18, (1 # 16)%Q)) /\
  (forall (c : call) (s : MCP960X), cached (snd (run c s)) = cached s).
Proof.
  split; [|split].
  - intros adc cold s.
    destruct (set_resolution_consistent adc cold s) as (s' & H & Ha & Hc & Hk & _).
    now exists s'.
  - intros bus addr tctype tcfilter cold adc s' H. unfold __init__ in H.
    apply bind_Ok_inv in H as (idrev & s1 & _ & H).
    apply bind_Ok_inv in H as (? & s2 & _ & H).
    apply bind_Ok_inv in H as (? & s3 & _ & H).
    apply bind_Ok_inv in H as (? & s4 & _ & H).
    destruct (set_resolution_consistent 18 (1 # 16)%Q s4)
      as (s5 & H5 & Ha & Hc & Hk & _).
    rewrite H5 in H. injection H as <-.
    split; [exact Hk|]. unfold cached. now rewrite Ha, Hc.
  - intros c s. apply keeps_run.
Qed.

Lemma resolution_cache_invariant_witness :
  cache_consistent
    (snd (__init__ (Bus sample_device []) 0x67 "K" 4 (1 # 4)%Q 12)) /\
  cached (snd (__init__ (Bus sample_device []) 0x67 "K" 4 (1 # 4)%Q 12)) =
    (18, (1 # 16)%Q).
Proof.
  apply (proj1 (proj2 resolution_cache_invariant)
               (Bus sample_device []) 0x67 "K"%string 4 (1 # 4)%Q 12).
  vm_compute. reflexivity.
Defined.

(** C8, on the sample device: [set_resolution(12, 0.25)] leaves the cache and
    the device-config byte it wrote (0xE0) in agreement; [read_temperatures()]
    then leaves the register pointer on register 0x00, and
    [set_power_mode('normal')], which reads without selecting the
    device-config register, takes the byte 0x01 of the hot-junction register,
    masks it and writes 0x00 to the device-config register.  The byte most
    recently written to the device now encodes 18 bits and 0.0625 while the
    cache still holds 12 and 0.25: the agreement is not kept. *)
Theorem power_mode_write_breaks_resolution_cache :
  exists s1 r s2 s3,
    set_resolution 12 (1 # 4)%Q sample_handle = (Ok tt, s1) /\
    cached s1 = (12, (1 # 4)%Q) /\
    last_write_to REG_DEVICE_CONFIG (log (i2c s1)) = Some [xe0] /\
    cache_consistent s1 /\
    read_temperatures s1 = (Ok r, s2) /\
    set_power_mode "normal" s2 = (Ok tt, s3) /\
    cached s3 = (12, (1 # 4)%Q) /\
    last_write_to REG_DEVICE_CONFIG (log (i2c s3)) = Some [x00] /\
    reg_byte (dev (i2c s3)) REG_DEVICE_CONFIG = Some 0 /\
    config_adc_bits 0 = 18 /\
    ~ cache_consistent s3.
Proof.
  eexists _, _, _, _.
  split; [vm_compute; reflexivity|].
  split; [reflexivity|]. split; [reflexivity|].
  split; [exists xe0; repeat split|].
  split; [vm_compute; reflexivity|].
  split; [vm_compute; reflexivity|].
  split; [reflexivity|]. split; [reflexivity|]. split; [reflexivity|].
  split; [reflexivity|].
  intros (b & H1 & H2 & _).
  vm_compute in H1. injection H1 as <-.
  vm_compute in H2. discriminate.
Qed.

(** ** Alert status *)

Lemma land_bit_truthy (a k : Z) :
  0 <= k -> truthy (Z.land a (Z.shiftl 1 k)) = Z.testbit a k.
Proof.
  intros Hk. rewrite Z.shiftl_1_l. unfold truthy.
  destruct (Z.testbit a k) eqn:Hb.
  - destruct (Z.land a (2 ^ k) =? 0) eqn:E0; [|reflexivity].
    apply Z.eqb_eq in E0.
    assert (Z.testbit (Z.land a (2 ^ k)) k = true) as Hc.
    { rewrite Z.land_spec, Hb, Z.pow2_bits_true by lia. reflexivity. }
    rewrite E0, Z.bits_0 in Hc. discriminate.
  - assert (Z.land a (2 ^ k) = 0) as ->; [|reflexivity].
    apply Z.bits_inj'. intros n Hn.
    rewrite Z.land_spec, Z.bits_0.
    destruct (Z.eq_dec n k) as [->|Hne].
    + now rewrite Hb.
    + rewrite Z.pow2_bits_false by lia. apply andb_false_r.
Qed.

Lemma valid_channel_cases (c : Z) :
  valid_channel c = true <-> c = 1 \/ c = 2 \/ c = 3 \/ c = 4.
Proof.
  unfold valid_channel. rewrite andb_true_iff, !Z.leb_le. lia.
Qed.

Lemma str_channel_inj (c c' : Z) :
  valid_channel c = true -> valid_channel c' = true -> str c = str c' -> c = c'.
Proof.
  rewrite !valid_channel_cases.
  intros [ -> | [ -> | [ -> | -> ] ] ] [ -> | [ -> | [ -> | -> ] ] ];
    vm_compute; congruence.
Qed.

Lemma first_invalid_None (l : list Z) :
  first_invalid l = None <-> Forall (fun c => valid_channel c = true) l.
Proof.
  induction l as [|c l IH]; cbn.
  - split; [constructor|reflexivity].
  - destruct (valid_channel c) eqn:E.
    + rewrite IH. split; [now constructor|now inversion 1].
    + split; [discriminate|]. inversion 1; congruence.
Qed.

Lemma first_invalid_Some (l : list Z) (x : Z) :
  first_invalid l = Some x <->
  exists pre post, l = pre ++ x :: post /\
                   Forall (fun c => valid_channel c = true) pre /\
                   valid_channel x = false.
Proof.
  induction l as [|c l IH]; cbn.
  - split; [discriminate|]. intros (pre & post & H & _). now destruct pre.
  - destruct (valid_channel c) eqn:E.
    + rewrite IH. split.
      * intros (pre & post & -> & Hpre & Hx).
        exists (c :: pre), post. repeat split; [now constructor|assumption].
      * intros (pre & post & H & Hpre & Hx).
        destruct pre as [|c' pre]; cbn in H; injection H as -> ->.
        -- congruence.
        -- exists pre, post. inversion Hpre; subst. now repeat split.
    + split.
      * intros [= <-]. exists [], l. repeat split; [constructor|assumption].
      * intros (pre & post & H & Hpre & Hx).
        destruct pre as [|c' pre]; cbn in H; injection H as -> ->.
        -- reflexivity.
        -- inversion Hpre; subst. congruence.
Qed.

Lemma alerts_loop_valid (status : Z) (items : list Z)
    (result : gmap string bool) (s : MCP960X) :
  first_invalid items = None ->
  alerts_loop status items result s = (Ok (alerts_fold status items result), s).
Proof.
  revert result. induction items as [|c items IH]; intros result; cbn.
  - reflexivity.
  - destruct (valid_channel c) eqn:E; [|discriminate].
    intros H. unfold valid_channel in E. rewrite E. cbn. now apply IH.
Qed.

Lemma alerts_loop_invalid (status : Z) (items : list Z) (x : Z)
    (result : gmap string bool) (s : MCP960X) :
  first_invalid items = Some x ->
  alerts_loop status items result s =
    (Raise (ValueError (String.append "Alert number must be 1-4, got " (str x))), s).
Proof.
  revert result. induction items as [|c items IH]; intros result; cbn.
  - discriminate.
  - destruct (valid_channel c) eqn:E; unfold valid_channel in E; rewrite E; cbn.
    + now apply IH.
    + now intros [= <-].
Qed.

Lemma alerts_fold_lookup (status : Z) (items : list Z)
    (result : gmap string bool) (c : Z) :
  Forall (fun c => valid_channel c = true) items ->
  valid_channel c = true ->
  c ∈ items \/ result !! str c = Some (status_bit status c) ->
  alerts_fold status items result !! str c = Some (status_bit status c).
Proof.
  intros Hall Hc. revert result.
  induction Hall as [|c0 items Hc0 Hall IH]; intros result H; cbn.
  - destruct H as [H|H]; [now apply elem_of_nil in H|exact H].
  - apply IH.
    destruct (Z.eq_dec c c0) as [->|Hne].
    + right. rewrite lookup_insert_eq. f_equal.
      apply land_bit_truthy. apply valid_channel_cases in Hc0. lia.
    + destruct H as [H|H].
      * apply elem_of_cons in H as [H|H]; [contradiction|now left].
      * right. rewrite lookup_insert_ne; [exact H|].
        intros Heq. apply Hne. symmetry. now apply str_channel_inj.
Qed.

Lemma alerts_fold_only (status : Z) (items : list Z)
    (result : gmap string bool) (k : string) :
  is_Some (alerts_fold status items result !! k) ->
  (exists c, c ∈ items /\ k = str c) \/ is_Some (result !! k).
Proof.
  revert result. induction items as [|c0 items IH]; intros result H; cbn in H.
  - now right.
  - apply IH in H as [(c & Hin & ->)|H].
    + left. exists c. split; [now apply elem_of_cons; right|reflexivity].
    + destruct (decide (str c0 = k)) as [<-|Hne].
      * left. exists c0. split; [apply elem_of_cons; now left|reflexivity].
      * rewrite lookup_insert_ne in H by assumption. now right.
Qed.

Lemma get_alerts_items (sel : selector) (s : MCP960X) :
  let d := Device 4 (regs (dev (i2c s))) in
  get_alerts sel s =
    (items <- iter (match sel with PyNone => PyRange 1 5 | other => other end);;
     alerts_loop (byte_val (cur_byte d)) items ∅)%py
      (with_i2c s (Bus d (log (i2c s) ++ [BusWrite [x04]; BusRead [cur_byte d]]))).
Proof.
  destruct s as [[d l] a t r c i]. cbn [dev i2c log].
  unfold get_alerts. munfold. cbn.
  change (mk_byte 4) with (Some x04). cbn. rewrite dev_read_1. cbn.
  rewrite <- app_assoc. now destruct sel.
Qed.

Lemma valid_channel_range (c : Z) : valid_channel c = true <-> 1 <= c <= 4.
Proof. rewrite valid_channel_cases. lia. Qed.

Lemma get_alerts_of_channels (sel : selector) (l : list Z) (s : MCP960X) :
  (sel = PyNone /\ l = [1; 2; 3; 4]) \/
  (sel = PyList l /\ Forall (fun c => 1 <= c <= 4) l) ->
  let d := Device 4 (regs (dev (i2c s))) in
  let status := byte_val (cur_byte d) in
  exists m,
    get_alerts sel s =
      (Ok m, with_i2c s (Bus d (log (i2c s) ++
                                [BusWrite [x04]; BusRead [cur_byte d]]))) /\
    (forall c, c ∈ l -> m !! str c = Some (status_bit status c)) /\
    (forall k, is_Some (m !! k) -> exists c, c ∈ l /\ k = str c).
Proof.
  intros Hsel d status.
  assert (Forall (fun c => valid_channel c = true) l) as Hall.
  { destruct Hsel as [[_ ->]|[_ H]].
    - repeat constructor.
    - eapply Forall_impl; [exact H|]. intros c Hc. now apply valid_channel_range. }
  exists (alerts_fold status l ∅). split; [|split].
  - rewrite get_alerts_items. fold d status.
    assert (iter (match sel with PyNone => PyRange 1 5 | other => other end)
            = ret l) as ->.
    { destruct Hsel as [[-> ->]|[-> _]]; reflexivity. }
    unfold bind at 1. unfold ret at 1.
    apply alerts_loop_valid. now apply first_invalid_None.
  - intros c Hc. apply alerts_fold_lookup; [assumption| |now left].
    rewrite Forall_forall in Hall. now apply Hall.
  - intros k Hk. apply alerts_fold_only in Hk as [H|H]; [exact H|].
    rewrite lookup_empty in H. now destruct H.
Qed.

(** C4, at a single channel number: the selector stays the integer it was
    ([(alerts)] is not a tuple), and iterating over it raises a type error
    after the status read, for channel 2 as for any other number; the call
    returns no mapping. *)
Theorem single_channel_selector_is_not_iterable (n : Z) (s : MCP960X) :
  let d := Device 4 (regs (dev (i2c s))) in
  get_alerts (PyInt n) s =
    (Raise (TypeError "'int' object is not iterable"),
     with_i2c s (Bus d (log (i2c s) ++ [BusWrite [x04]; BusRead [cur_byte d]]))).
Proof. cbv zeta. rewrite get_alerts_items. reflexivity. Qed.

(** C9 as stated fails for the selector [5]: the call fails, and by then
    the bus has seen the one-byte write that selects the status register. *)
Lemma out_of_range_failure_follows_pointer_write :
  ~ fails_before_any_write (PyList [5]) sample_handle.
Proof.
  intros (e & s' & H & Hf).
  vm_compute in H. injection H as <- <-.
  vm_compute in Hf. discriminate.
Qed.

(** C9, amended: for a list selector with a number outside 1..4 the call
    raises the value error that names the first such number of the list;
    before that the driver has selected the status register with a one-byte
    write and read one byte, and no register of the device has changed. *)
Theorem get_alerts_rejects_first_invalid (l : list Z) (s : MCP960X) :
  Exists (fun c => ~ 1 <= c <= 4) l ->
  exists pre x post,
    l = pre ++ x :: post /\
    Forall (fun c => 1 <= c <= 4) pre /\
    ~ 1 <= x <= 4 /\
    let d := Device 4 (regs (dev (i2c s))) in
    get_alerts (PyList l) s =
      (Raise (ValueError (String.append "Alert number must be 1-4, got " (str x))),
       with_i2c s (Bus d (log (i2c s) ++
                          [BusWrite [x04]; BusRead [cur_byte d]]))).
Proof.
  intros Hex.
  destruct (first_invalid l) as [x|] eqn:E.
  - pose proof E as (pre & post & -> & Hpre & Hx)%first_invalid_Some.
    exists pre, x, post. split; [reflexivity|]. split; [|split].
    + eapply Forall_impl; [exact Hpre|]. intros c Hc. now apply valid_channel_range.
    + rewrite <- valid_channel_range. congruence.
    + cbv zeta. rewrite get_alerts_items. cbn [iter].
      unfold bind at 1. unfold ret at 1.
      now apply alerts_loop_invalid.
  - exfalso. apply first_invalid_None in E.
    apply Exists_exists in Hex as (c & Hin & Hc).
    rewrite Forall_forall in E. apply Hc, valid_channel_range, E, Hin.
Qed.

Lemma get_alerts_rejects_first_invalid_witness :
  exists pre x post,
    [2; 5; 7] = pre ++ x :: post /\
    Forall (fun c => 1 <= c <= 4) pre /\
    ~ 1 <= x <= 4 /\
    let d := Device 4 (regs (dev (i2c sample_handle))) in
    get_alerts (PyList [2; 5; 7]) sample_handle =
      (Raise (ValueError (String.append "Alert number must be 1-4, got " (str x))),
       with_i2c sample_handle
                (Bus d (log (i2c sample_handle) ++
                        [BusWrite [x04]; BusRead [cur_byte d]]))).
Proof.
  apply (get_alerts_rejects_first_invalid [2; 5; 7] sample_handle).
  apply Exists_cons_tl, Exists_cons_hd. lia.
Defined.

(** * Further properties *)

(** ** What the methods leave alone *)

Create HintDb pres.

Lemma preserves_ret {A T} (f : MCP960X -> T) (a : A) : preserves f (ret a).
Proof. intros s. reflexivity. Qed.

Lemma preserves_raise {A T} (f : MCP960X -> T) (e : exn) :
  preserves f (@raise A e).
Proof. intros s. reflexivity. Qed.

Lemma preserves_bind {A B T} (f : MCP960X -> T) (m : M A) (k : A -> M B) :
  preserves f m -> (forall a, preserves f (k a)) -> preserves f (bind m k).
Proof.
  intros Hm Hk s. unfold bind. specialize (Hm s).
  destruct (m s) as [[a|e] s1]; cbn in Hm |- *.
  - now rewrite Hk.
  - exact Hm.
Qed.

Lemma preserves_get_self {T} (f : MCP960X -> T) : preserves f get_self.
Proof. intros s. reflexivity. Qed.

Lemma preserves_bytes {T} (f : MCP960X -> T) (l : list Z) :
  preserves f (bytes l).
Proof. intros s. unfold bytes. now destruct (mapM mk_byte l). Qed.

Lemma preserves_getitem {T} (f : MCP960X -> T) data i :
  preserves f (getitem data i).
Proof. intros s. unfold getitem. now destruct (data !! i). Qed.

Lemma preserves_qitem {T} (f : MCP960X -> T) l i : preserves f (qitem l i).
Proof. intros s. unfold qitem. now destruct (l !! i). Qed.

Lemma preserves_dict_subscript {K V T} (f : MCP960X -> T)
    (eqb : K -> K -> bool) (d : list (K * V)) k :
  preserves f (dict_subscript eqb d k).
Proof. intros s. unfold dict_subscript. now destruct (dict_find eqb d k). Qed.

Lemma preserves_iter {T} (f : MCP960X -> T) v : preserves f (iter v).
Proof. intros s. now destruct v. Qed.

#[local] Hint Resolve preserves_ret preserves_raise preserves_get_self
  preserves_bytes preserves_getitem preserves_qitem preserves_dict_subscript
  preserves_iter : pres.
#[local] Hint Extern 2 (preserves _ (bind _ _)) =>
  apply preserves_bind; [|intros] : pres.
#[local] Hint Extern 2 (preserves _ (if ?b then _ else _)) =>
  destruct b : pres.

Lemma preserves_temps_loop {T} (f : MCP960X -> T) data adc_lsb cold_lsb range temps :
  preserves f (temps_loop data adc_lsb cold_lsb range temps).
Proof.
  revert temps. induction range as [|i range IH]; intros temps; cbn;
    auto 10 with pres.
Qed.

Lemma preserves_limits_loop {T} (f : MCP960X -> T) data range limits :
  preserves f (limits_loop data range limits).
Proof.
  revert limits. induction range as [|i range IH]; intros limits; cbn;
    auto 10 with pres.
Qed.

Lemma preserves_alerts_loop {T} (f : MCP960X -> T) status items result :
  preserves f (alerts_loop status items result).
Proof.
  revert result. induction items as [|c items IH]; intros result; cbn;
    auto with pres.
Qed.

#[local] Hint Resolve preserves_temps_loop preserves_limits_loop
  preserves_alerts_loop : pres.

(** Registers: a pointer write and a read change none. *)

Lemma regs_write_pointer (p : Z) : preserves device_regs (_write_pointer p).
Proof.
  intros s. unfold _write_pointer, bytes, bind. cbn.
  destruct (mk_byte p); reflexivity.
Qed.

Lemma regs_read_bytes (n : nat) : preserves device_regs (_read_bytes n).
Proof. intros s. reflexivity. Qed.

#[local] Hint Resolve regs_write_pointer regs_read_bytes : pres.

(** X1: the reading methods ([get_device_id_and_revision],
    [read_temperatures], [read_all_alerts], [get_status], [get_alerts])
    change no register of the device, whatever they return or raise. *)
Theorem queries_keep_registers (c : call) (s : MCP960X) :
  is_query c = true -> device_regs (snd (run c s)) = device_regs s.
Proof.
  intros Hq. revert s. change (preserves device_regs (run c)).
  destruct c; try discriminate; cbn [run]; unfold discard.
  - unfold get_device_id_and_revision. auto 20 with pres.
  - unfold read_temperatures. auto 20 with pres.
  - unfold read_all_alerts. auto 20 with pres.
  - unfold get_status. auto 20 with pres.
  - unfold get_alerts. auto 20 with pres.
Qed.

Lemma queries_keep_registers_witness :
  device_regs (snd (run (CallGetAlerts (PyList [2; 9])) sample_handle)) =
  device_regs sample_handle.
Proof. now apply queries_keep_registers. Defined.

(** Identity: only the constructor assigns it. *)

Lemma identity_set_i2c (b : I2C) : preserves identity (set_i2c b).
Proof. intros s. reflexivity. Qed.

Lemma identity_set_adc_resolution (v : Z) :
  preserves identity (set_adc_resolution v).
Proof. intros s. reflexivity. Qed.

Lemma identity_set_cold_junction_res (v : Q) :
  preserves identity (set_cold_junction_res v).
Proof. intros s. reflexivity. Qed.

#[local] Hint Resolve identity_set_i2c identity_set_adc_resolution
  identity_set_cold_junction_res : pres.

Lemma identity_i2c_writeto (buf : list byte) :
  preserves identity (i2c_writeto buf).
Proof. unfold i2c_writeto. auto with pres. Qed.

Lemma identity_write_pointer (p : Z) : preserves identity (_write_pointer p).
Proof. unfold _write_pointer. pose proof identity_i2c_writeto. auto with pres. Qed.

Lemma identity_read_bytes (n : nat) : preserves identity (_read_bytes n).
Proof. intros s. reflexivity. Qed.

#[local] Hint Resolve identity_i2c_writeto identity_write_pointer
  identity_read_bytes : pres.

(** X2: no public method, [set_resolution] included, changes the bus
    address, the settle delay or the identity byte cached at construction. *)
Theorem identity_is_fixed :
  (forall (c : call) (s : MCP960X), identity (snd (run c s)) = identity s) /\
  (forall (adc : Z) (cold : Q) (s : MCP960X),
      identity (snd (set_resolution adc cold s)) = identity s).
Proof.
  split.
  - intros c. change (preserves identity (run c)).
    destruct c; cbn [run]; unfold discard.
    + unfold get_device_id_and_revision. auto 20 with pres.
    + unfold set_thermocouple_type. auto 20 with pres.
    + unfold set_filter_coefficient. auto 20 with pres.
    + unfold read_temperatures. auto 20 with pres.
    + unfold set_power_mode. auto 20 with pres.
    + unfold read_all_alerts. auto 20 with pres.
    + unfold set_alert. auto 20 with pres.
    + unfold get_status. auto 20 with pres.
    + unfold get_alerts. auto 20 with pres.
  - intros adc cold. change (preserves identity (set_resolution adc cold)).
    unfold set_resolution. auto 20 with pres.
Qed.

(** ** Status *)

Lemma get_status_run (s : MCP960X) :
  let d := Device 4 (regs (dev (i2c s))) in
  let status := byte_val (cur_byte d) in
  get_status s =
    (Ok (Status (Z.testbit status 7) (Z.testbit status 6)
                (if dev_id s =? 0x40 then false else Z.testbit status 5)
                (Z.testbit status 4)
                [Z.testbit status 0; Z.testbit status 1;
                 Z.testbit status 2; Z.testbit status 3]),
     with_i2c s (Bus d (log (i2c s) ++ [BusWrite [x04]; BusRead [cur_byte d]]))).
Proof.
  destruct s as [[d l] a t r c i]. cbn [dev i2c log dev_id].
  unfold get_status. munfold. cbn.
  change (mk_byte 4) with (Some x04). cbn. rewrite dev_read_1. cbn.
  rewrite !land_bit_truthy by lia. now rewrite <- app_assoc.
Qed.

(** X3: [get_status] selects the status register, reads one byte and
    reports bits 7, 6 and 4 as burst-complete, temperature-updated and
    input-range-error and bits 0-3 as the four alert flags; the short-circuit
    flag is bit 5, except on a device whose identity byte is 0x40, where it is
    [False] whatever bit 5 holds. *)
Theorem get_status_decodes (s : MCP960X) :
  exists st s',
    get_status s = (Ok st, s') /\
    let status := byte_val (cur_byte (Device 4 (device_regs s))) in
    burst_complete st = Z.testbit status 7 /\
    temp_updated st = Z.testbit status 6 /\
    input_range_error st = Z.testbit status 4 /\
    alerts st = map (Z.testbit status) [0; 1; 2; 3] /\
    short_circuit st = negb (dev_id s =? 0x40) && Z.testbit status 5 /\
    log (i2c s') = log (i2c s) ++
                   [BusWrite [x04]; BusRead [cur_byte (Device 4 (device_regs s))]].
Proof.
  eexists _, _. split; [apply get_status_run|]. cbn.
  repeat split. now destruct (dev_id s =? 64).
Qed.

(** X4: the alert flags of [get_status] and the entries of [get_alerts()]
    agree: read one after the other, entry [str(c)] of the mapping is flag
    [c - 1] of the list, for each channel c in 1..4. *)
Theorem get_status_and_get_alerts_agree (s : MCP960X) :
  exists st s1 m s2,
    get_status s = (Ok st, s1) /\
    get_alerts PyNone s1 = (Ok m, s2) /\
    forall c, c ∈ [1; 2; 3; 4] ->
              m !! str c = alerts st !! Z.to_nat (c - 1).
Proof.
  destruct (get_alerts_of_channels PyNone [1; 2; 3; 4]
              (snd (get_status s)) (or_introl (conj eq_refl eq_refl)))
    as (m & Hm & Hlook & _).
  rewrite get_status_run in Hm, Hlook.
  cbn [snd with_i2c i2c dev regs log] in Hm, Hlook.
  eexists _, _, m, _. split; [apply get_status_run|]. split; [exact Hm|].
  intros c Hc. rewrite (Hlook c Hc). cbn [alerts]. unfold status_bit.
  repeat (apply elem_of_cons in Hc as [->|Hc]; [reflexivity|]).
  now apply elem_of_nil in Hc.
Qed.

(** ** Temperature registers, continued *)

Lemma read_temperatures_run (s : MCP960X) :
  exists b0 b1 b2 b3 b4 b5,
    let d := Device 0 (regs (dev (i2c s))) in
    dev_read d 6 = [b0; b1; b2; b3; b4; b5] /\
    read_temperatures s =
      (Ok (Temps
             (inject_Z (twos_complement16 b0 b1) * adc_step (_adc_resolution s))%Q
             (inject_Z (twos_complement16 b2 b3) * adc_step (_adc_resolution s))%Q
             (inject_Z (twos_complement16 b4 b5) * _cold_junction_res s)%Q),
       with_i2c s (Bus d (log (i2c s) ++
                          [BusWrite [x00];
                           BusRead [b0; b1; b2; b3; b4; b5]]))).
Proof.
  destruct (dev_read_6 (Device 0 (regs (dev (i2c s)))))
    as (b0 & b1 & b2 & b3 & b4 & b5 & E).
  exists b0, b1, b2, b3, b4, b5. cbv zeta. split; [exact E|].
  destruct s as [[d l] a t r c i].
  unfold read_temperatures, temps_loop. munfold. cbn in E |- *.
  change (mk_byte 0) with (Some x00). cbn.
  rewrite E. cbn.
  rewrite !word16_twos_complement, adc_step_table, <- app_assoc.
  reflexivity.
Qed.

(** X5: [read_temperatures] depends on the register contents and the cached
    resolutions only, not on where the register pointer was or on what the
    bus has seen: from two states with the same registers and the same
    cached resolutions it returns the same reading, and a second call right
    after the first returns it again. *)
Theorem read_temperatures_ignores_pointer (s s' : MCP960X) :
  device_regs s = device_regs s' -> cached s = cached s' ->
  exists r s1 s1' s2,
    read_temperatures s = (Ok r, s1) /\
    read_temperatures s' = (Ok r, s1') /\
    read_temperatures s1 = (Ok r, s2).
Proof.
  intros Hregs Hcache. unfold device_regs in Hregs.
  injection Hcache as Hadc Hcold.
  destruct (read_temperatures_run s) as (b0 & b1 & b2 & b3 & b4 & b5 & E & H).
  cbv zeta in E, H.
  destruct (read_temperatures_run s')
    as (d0 & d1 & d2 & d3 & d4 & d5 & E1 & H1).
  cbv zeta in E1, H1. rewrite <- Hregs in E1, H1.
  rewrite <- Hadc, <- Hcold in H1.
  rewrite E in E1. injection E1 as <- <- <- <- <- <-.
  destruct (read_temperatures_run (snd (read_temperatures s)))
    as (c0 & c1 & c2 & c3 & c4 & c5 & E2 & H2).
  rewrite H in E2, H2. cbv zeta in E2, H2.
  cbn [snd with_i2c i2c dev regs log _adc_resolution _cold_junction_res] in E2, H2.
  rewrite E in E2. injection E2 as <- <- <- <- <- <-.
  eexists _, _, _, _. split; [exact H|]. split; [exact H1|exact H2].
Qed.

Lemma read_temperatures_ignores_pointer_witness :
  pointer (dev (i2c sample_handle)) = 0 /\
  pointer (dev (i2c (snd (get_status sample_handle)))) = 4 /\
  exists r s1 s1' s2,
    read_temperatures sample_handle = (Ok r, s1) /\
    read_temperatures (snd (get_status sample_handle)) = (Ok r, s1') /\
    read_temperatures s1 = (Ok r, s2).
Proof.
  split; [reflexivity|]. split; [reflexivity|].
  apply (read_temperatures_ignores_pointer sample_handle
           (snd (get_status sample_handle))); vm_compute; reflexivity.
Defined.

Lemma twos_complement16_range (hi lo : byte) :
  -32768 <= twos_complement16 hi lo < 32768.
Proof.
  pose proof (byte_val_range hi). pose proof (byte_val_range lo).
  unfold twos_complement16. cbv zeta.
  destruct (32768 <=? 256 * byte_val hi + byte_val lo) eqn:E.
  - apply Z.leb_le in E. lia.
  - apply Z.leb_gt in E. lia.
Qed.

Lemma adc_step_pos (bits : Z) : (0 < adc_step bits)%Q.
Proof.
  unfold adc_step. destruct (bits =? 12); [reflexivity|].
  destruct (bits =? 14); reflexivity.
Qed.

Lemma counts_bound (v : Z) (lsb : Q) :
  -32768 <= v < 32768 -> (0 < lsb)%Q ->
  (inject_Z (-32768) * lsb <= inject_Z v * lsb)%Q /\
  (inject_Z v * lsb < inject_Z 32768 * lsb)%Q.
Proof.
  intros Hv Hl. split.
  - apply Qmult_le_compat_r; [|now apply Qlt_le_weak].
    rewrite <- Zle_Qle. lia.
  - apply Qmult_lt_compat_r; [assumption|]. rewrite <- Zlt_Qlt. lia.
Qed.

(** X6: the hot-junction and delta temperatures [read_temperatures] returns
    lie between -32768 (included) and 32768 steps of the ADC resolution in
    use, for every state of the device. *)
Theorem read_temperatures_bounds (s : MCP960X) :
  exists r s',
    read_temperatures s = (Ok r, s') /\
    let step := adc_step (_adc_resolution s) in
    (inject_Z (-32768) * step <= T_H r)%Q /\ (T_H r < inject_Z 32768 * step)%Q /\
    (inject_Z (-32768) * step <= T_delta r)%Q /\
    (T_delta r < inject_Z 32768 * step)%Q.
Proof.
  destruct (read_temperatures_run s) as (b0 & b1 & b2 & b3 & b4 & b5 & _ & H).
  eexists _, _. split; [exact H|]. cbn [T_H T_delta].
  pose proof (counts_bound _ _ (twos_complement16_range b0 b1)
                           (adc_step_pos (_adc_resolution s))) as [? ?].
  pose proof (counts_bound _ _ (twos_complement16_range b2 b3)
                           (adc_step_pos (_adc_resolution s))) as [? ?].
  repeat split; assumption.
Qed.

Arguments limit_word : simpl never.

(** ** Alert configuration, continued *)

Lemma mk_byte_of (z : Z) : 0 <= z < 256 -> mk_byte z = Some (byte_of z).
Proof.
  intros Hz. destruct (mk_byte_in_range z Hz) as (b & Hb & _).
  unfold byte_of. now rewrite Hb.
Qed.

Lemma byte_val_of (z : Z) : 0 <= z < 256 -> byte_val (byte_of z) = z.
Proof.
  intros Hz. destruct (mk_byte_in_range z Hz) as (b & Hb & Hv).
  unfold byte_of. now rewrite Hb.
Qed.

Lemma limit_bytes_range (limit : Q) :
  0 <= limit_hi limit < 256 /\ 0 <= limit_lo limit < 256.
Proof.
  unfold limit_hi, limit_lo.
  rewrite (Z.land_comm _ 0xFF), (Z.land_comm _ 0xFF).
  split; apply land_byte; lia.
Qed.

Lemma alert_config_bits_range enable monitor rising active_low mode clear :
  0 <= alert_config_bits enable monitor rising active_low mode clear < 256.
Proof.
  unfold alert_config_bits, b2z.
  destruct enable, (String.eqb mode "interrupt"), active_low, rising,
    (String.eqb monitor "TC"), clear; cbn; lia.
Qed.

Lemma set_alert_run (alert_num : Z) (enable : bool) (limit : Q)
    (hysteresis : Z) (monitor : string) (rising active_low : bool)
    (mode : string) (clear_interrupt : bool) (s : MCP960X) :
  1 <= alert_num <= 4 -> 0 <= hysteresis ->
  let k := alert_num - 1 in
  let hi := byte_of (limit_hi limit) in
  let lo := byte_of (limit_lo limit) in
  let h := byte_of (Z.min hysteresis 255) in
  let cfg := byte_of (alert_config_bits enable monitor rising active_low mode
                                        clear_interrupt) in
  set_alert alert_num enable limit hysteresis monitor rising active_low mode
            clear_interrupt s =
    (Ok tt,
     with_i2c s
       (Bus (Device (0x08 + k)
               (<[0x08 + k := [cfg]]>
                  (<[0x0C + k := [h]]>
                     (<[0x10 + k := [hi; lo]]> (regs (dev (i2c s)))))))
            (log (i2c s) ++
             [BusWrite [byte_of (0x10 + k); hi; lo];
              BusWrite [byte_of (0x0C + k); h];
              BusWrite [byte_of (0x08 + k); cfg]]))).
Proof.
  intros Hn Hh k hi lo h cfg.
  destruct (limit_bytes_range limit) as [Hhi Hlo].
  pose proof (mk_byte_of _ Hhi) as Ehi. pose proof (mk_byte_of _ Hlo) as Elo.
  assert (mk_byte (Z.min hysteresis 255) = Some h) as Eh
    by (apply mk_byte_of; lia).
  fold hi in Ehi. fold lo in Elo.
  unfold limit_hi in Ehi. unfold limit_lo in Elo.
  unfold alert_config_bits, b2z in cfg.
  destruct s as [[d l] a t r c i].
  unfold set_alert. munfold. cbn [dev i2c log regs].
  assert (alert_num = 1 \/ alert_num = 2 \/ alert_num = 3 \/ alert_num = 4)
    as Hcases by lia.
  destruct Hcases as [ -> | [ -> | [ -> | -> ] ] ]; subst k; cbn;
    rewrite Ehi, Elo, Eh; cbn;
    destruct enable, (String.eqb mode "interrupt"), active_low, rising,
      (String.eqb monitor "TC"), clear_interrupt;
    repeat (match goal with
            | |- context [mk_byte ?z] =>
                rewrite (mk_byte_of z)
                  by (clear; split; [apply Z.leb_le|apply Z.ltb_lt];
                      vm_compute; reflexivity)
            end; cbn);
    rewrite <- !app_assoc; reflexivity.
Qed.

Lemma set_alert_negative_hysteresis (alert_num : Z) (enable : bool) (limit : Q)
    (hysteresis : Z) (monitor : string) (rising active_low : bool)
    (mode : string) (clear_interrupt : bool) (s : MCP960X) :
  1 <= alert_num <= 4 -> hysteresis < 0 ->
  let k := alert_num - 1 in
  let hi := byte_of (limit_hi limit) in
  let lo := byte_of (limit_lo limit) in
  set_alert alert_num enable limit hysteresis monitor rising active_low mode
            clear_interrupt s =
    (Raise (ValueError "bytes must be in range(0, 256)"),
     with_i2c s
       (Bus (Device (0x10 + k) (<[0x10 + k := [hi; lo]]> (regs (dev (i2c s)))))
            (log (i2c s) ++ [BusWrite [byte_of (0x10 + k); hi; lo]]))).
Proof.
  intros Hn Hh k hi lo.
  destruct (limit_bytes_range limit) as [Hhi Hlo].
  pose proof (mk_byte_of _ Hhi) as Ehi. pose proof (mk_byte_of _ Hlo) as Elo.
  assert (mk_byte (Z.min hysteresis 255) = None) as Eh
    by (apply mk_byte_out_of_range; lia).
  fold hi in Ehi. fold lo in Elo.
  unfold limit_hi in Ehi. unfold limit_lo in Elo.
  destruct s as [[d l] a t r c i].
  unfold set_alert. munfold. cbn [dev i2c log regs].
  assert (alert_num = 1 \/ alert_num = 2 \/ alert_num = 3 \/ alert_num = 4)
    as Hcases by lia.
  destruct Hcases as [ -> | [ -> | [ -> | -> ] ] ]; subst k; cbn;
    rewrite Ehi, Elo, Eh; cbn;
    repeat (match goal with
            | |- context [mk_byte ?z] =>
                rewrite (mk_byte_of z)
                  by (clear; split; [apply Z.leb_le|apply Z.ltb_lt];
                      vm_compute; reflexivity)
            end; cbn);
    reflexivity.
Qed.

Lemma new_events_app (s s' : MCP960X) (evs : list bus_event) :
  log (i2c s') = log (i2c s) ++ evs -> new_events s s' = evs.
Proof. intros H. unfold new_events. rewrite H. apply drop_app_length. Qed.

Lemma channel_cases (alert_num : Z) :
  1 <= alert_num <= 4 ->
  alert_num = 1 \/ alert_num = 2 \/ alert_num = 3 \/ alert_num = 4.
Proof. lia. Qed.

(** X7: for a channel in 1..4, a limit of a whole number of steps of 0.0625
    degrees within the 15-bit range of the register and a hysteresis that is
    not negative, [set_alert] succeeds with exactly three bus writes, in this
    order: the two limit bytes to register 0x10 + (channel - 1), the
    hysteresis, at most 255, to 0x0C + (channel - 1), and the configuration
    byte to 0x08 + (channel - 1); every other register keeps its contents. *)
Theorem set_alert_writes_three_registers (alert_num steps : Z) (enable : bool)
    (hysteresis : Z) (monitor : string) (rising active_low : bool)
    (mode : string) (clear_interrupt : bool) (s : MCP960X) :
  1 <= alert_num <= 4 -> -32768 < steps < 32768 -> 0 <= hysteresis ->
  let limit := (inject_Z steps * (1 # 16))%Q in
  exists s',
    set_alert alert_num enable limit hysteresis monitor rising active_low mode
              clear_interrupt s = (Ok tt, s') /\
    let k := alert_num - 1 in
    write_summary <$> new_events s s' =
      [Some (0x10 + k, [limit_hi limit; limit_lo limit]);
       Some (0x0C + k, [Z.min hysteresis 255]);
       Some (0x08 + k,
             [alert_config_bits enable monitor rising active_low mode
                                clear_interrupt])] /\
    limit_word limit =
      (if steps <? 0 then Z.lor (Z.abs steps) 0x8000 else Z.abs steps) /\
    forall r, r <> 0x10 + k -> r <> 0x0C + k -> r <> 0x08 + k ->
              device_regs s' !! r = device_regs s !! r.
Proof.
  intros Hn Hsteps Hh limit. eexists. split; [now apply set_alert_run|].
  cbv zeta. split; [|split].
  - erewrite new_events_app by (cbn [with_i2c i2c log]; reflexivity).
    destruct (limit_bytes_range limit) as [Hhi Hlo].
    pose proof (alert_config_bits_range enable monitor rising active_low mode
                                        clear_interrupt).
    cbn [fmap list_fmap write_summary].
    rewrite !byte_val_of by lia. reflexivity.
  - apply limit_word_counts.
  - intros r H1 H2 H3. unfold device_regs. cbn [with_i2c i2c dev regs].
    now rewrite !lookup_insert_ne by congruence.
Qed.

Lemma set_alert_writes_three_registers_witness :
  let limit := (inject_Z 600 * (1 # 16))%Q in
  exists s',
    set_alert 2 true limit 300 "TC" false true "interrupt" false
              sample_handle = (Ok tt, s') /\
    let k := 2 - 1 in
    write_summary <$> new_events sample_handle s' =
      [Some (0x10 + k, [limit_hi limit; limit_lo limit]);
       Some (0x0C + k, [Z.min 300 255]);
       Some (0x08 + k,
             [alert_config_bits true "TC" false true "interrupt" false])] /\
    limit_word limit = (if 600 <? 0 then Z.lor (Z.abs 600) 0x8000 else Z.abs 600) /\
    forall r, r <> 0x10 + k -> r <> 0x0C + k -> r <> 0x08 + k ->
              device_regs s' !! r = device_regs sample_handle !! r.
Proof.
  apply (set_alert_writes_three_registers 2 600 true 300 "TC" false true
           "interrupt" false sample_handle); lia.
Defined.

(** X8: with a negative hysteresis [set_alert] is not atomic: for a channel
    in 1..4 and a limit of a whole number of steps of 0.0625 degrees within
    the 15-bit range of the register it writes the limit register, then
    raises the value error of [bytes], and the hysteresis and configuration
    registers are not written. *)
Theorem set_alert_negative_hysteresis_keeps_limit_write (alert_num steps : Z)
    (enable : bool) (hysteresis : Z) (monitor : string)
    (rising active_low : bool) (mode : string) (clear_interrupt : bool)
    (s : MCP960X) :
  1 <= alert_num <= 4 -> -32768 < steps < 32768 -> hysteresis < 0 ->
  let limit := (inject_Z steps * (1 # 16))%Q in
  exists msg s',
    set_alert alert_num enable limit hysteresis monitor rising active_low mode
              clear_interrupt s = (Raise (ValueError msg), s') /\
    let k := alert_num - 1 in
    write_summary <$> new_events s s' =
      [Some (0x10 + k, [limit_hi limit; limit_lo limit])] /\
    forall r, r <> 0x10 + k -> device_regs s' !! r = device_regs s !! r.
Proof.
  intros Hn Hsteps Hh limit. eexists _, _.
  split; [now apply set_alert_negative_hysteresis|].
  cbv zeta. split.
  - erewrite new_events_app by (cbn [with_i2c i2c log]; reflexivity).
    destruct (limit_bytes_range limit) as [Hhi Hlo].
    cbn [fmap list_fmap write_summary].
    rewrite !byte_val_of by lia. reflexivity.
  - intros r H1. unfold device_regs. cbn [with_i2c i2c dev regs].
    now rewrite lookup_insert_ne by congruence.
Qed.

Lemma set_alert_negative_hysteresis_keeps_limit_write_witness :
  let limit := (inject_Z 2400 * (1 # 16))%Q in
  exists msg s',
    set_alert 1 true limit (-1) "TH" true false "comparator" false
              sample_handle = (Raise (ValueError msg), s') /\
    let k := 1 - 1 in
    write_summary <$> new_events sample_handle s' =
      [Some (0x10 + k, [limit_hi limit; limit_lo limit])] /\
    forall r, r <> 0x10 + k ->
              device_regs s' !! r = device_regs sample_handle !! r.
Proof.
  apply (set_alert_negative_hysteresis_keeps_limit_write 1 2400 true (-1)
           "TH" true false "comparator" false sample_handle); lia.
Defined.

(** X9: for a channel in 1..4, a limit of a whole number of steps of 0.0625
    degrees within the 15-bit range of the register and a hysteresis that is
    not negative, the configuration byte [set_alert] writes holds the six
    options in separate bits and can be decoded: bit 0 is [enable], bit 1 is
    set for the mode 'interrupt', bit 2 for active-high, bit 3 for a falling
    limit, bit 4 for the monitor 'TC', bit 7 is [clear_interrupt], bits 5
    and 6 are 0. *)
Theorem alert_config_byte_fields (alert_num steps : Z) (enable : bool)
    (hysteresis : Z) (monitor : string) (rising active_low : bool)
    (mode : string) (clear_interrupt : bool) (s : MCP960X) :
  1 <= alert_num <= 4 -> -32768 < steps < 32768 -> 0 <= hysteresis ->
  exists s' cfg,
    set_alert alert_num enable (inject_Z steps * (1 # 16))%Q hysteresis monitor
              rising active_low mode clear_interrupt s = (Ok tt, s') /\
    reg_byte (dev (i2c s')) (REG_ALERT_CONFIG + (alert_num - 1)) = Some cfg /\
    Z.testbit cfg 0 = enable /\
    Z.testbit cfg 1 = String.eqb mode "interrupt" /\
    Z.testbit cfg 2 = negb active_low /\
    Z.testbit cfg 3 = negb rising /\
    Z.testbit cfg 4 = String.eqb monitor "TC" /\
    Z.testbit cfg 5 = false /\ Z.testbit cfg 6 = false /\
    Z.testbit cfg 7 = clear_interrupt.
Proof.
  intros Hn Hsteps Hh. eexists _, _. split; [now apply set_alert_run|].
  cbn [with_i2c i2c dev]. unfold REG_ALERT_CONFIG.
  split; [apply reg_byte_insert|].
  rewrite byte_val_of by apply alert_config_bits_range.
  unfold alert_config_bits, b2z.
  destruct enable, (String.eqb mode "interrupt"), active_low, rising,
    (String.eqb monitor "TC"), clear_interrupt; repeat split.
Qed.

Lemma alert_config_byte_fields_witness :
  exists s' cfg,
    set_alert 3 true (inject_Z 2400 * (1 # 16))%Q 10 "TC" false false
              "interrupt" true sample_handle = (Ok tt, s') /\
    reg_byte (dev (i2c s')) (REG_ALERT_CONFIG + (3 - 1)) = Some cfg /\
    Z.testbit cfg 0 = true /\
    Z.testbit cfg 1 = String.eqb "interrupt" "interrupt" /\
    Z.testbit cfg 2 = negb false /\
    Z.testbit cfg 3 = negb false /\
    Z.testbit cfg 4 = String.eqb "TC" "TC" /\
    Z.testbit cfg 5 = false /\ Z.testbit cfg 6 = false /\
    Z.testbit cfg 7 = true.
Proof.
  apply (alert_config_byte_fields 3 2400 true 10 "TC" false false "interrupt"
           true sample_handle); lia.
Defined.

(** ** Alert limits: words beyond 15 bits *)



(** ** Reading the alert registers *)

Lemma dev_read_4 (d : device) :
  exists b0 b1 b2 b3, dev_read d 4 = [b0; b1; b2; b3].
Proof.
  pose proof (dev_read_length d 4) as H.
  destruct (dev_read d 4) as [|b0 [|b1 [|b2 [|b3 [|]]]]]; try discriminate.
  now exists b0, b1, b2, b3.
Qed.

Lemma dev_read_8 (d : device) :
  exists b0 b1 b2 b3 b4 b5 b6 b7,
    dev_read d 8 = [b0; b1; b2; b3; b4; b5; b6; b7].
Proof.
  pose proof (dev_read_length d 8) as H.
  destruct (dev_read d 8)
    as [|b0 [|b1 [|b2 [|b3 [|b4 [|b5 [|b6 [|b7 [|]]]]]]]]]; try discriminate.
  now exists b0, b1, b2, b3, b4, b5, b6, b7.
Qed.

Lemma read_all_alerts_run (s : MCP960X) :
  let r := regs (dev (i2c s)) in
  let cs := dev_read (Device 0x08 r) 4 in
  let ls := dev_read (Device 0x10 r) 8 in
  let hs := dev_read (Device 0x0C r) 4 in
  read_all_alerts s =
    (Ok (Alerts cs (limits_of ls) hs),
     with_i2c s (Bus (Device 0x0C r)
                     (log (i2c s) ++
                      [BusWrite [x08]; BusRead cs; BusWrite [x10]; BusRead ls;
                       BusWrite [x0c]; BusRead hs]))).
Proof.
  intros r cs ls hs.
  destruct (dev_read_8 (Device 0x10 r)) as (b0&b1&b2&b3&b4&b5&b6&b7&E).
  fold ls in E.
  destruct s as [[d l] a t r0 c i]. cbn [dev i2c log regs] in *.
  unfold read_all_alerts, limits_loop. munfold. cbn.
  change (mk_byte 8) with (Some x08). cbn.
  change (mk_byte 16) with (Some x10). cbn.
  fold r. fold ls. rewrite E. cbn.
  change (mk_byte 12) with (Some x0c). cbn.
  fold r. fold cs hs. rewrite <- !app_assoc. reflexivity.
Qed.

Lemma limit_degrees_range (hi lo : byte) :
  (-2048 <= inject_Z (word16 (byte_val hi) (byte_val lo)) * (1 # 16))%Q /\
  (inject_Z (word16 (byte_val hi) (byte_val lo)) * (1 # 16) < 2048)%Q.
Proof.
  rewrite word16_twos_complement.
  pose proof (twos_complement16_range hi lo) as H.
  unfold Qle, Qlt. cbn. lia.
Qed.

(** X11: [read_all_alerts] succeeds in every state of the device; it returns
    four configuration bytes, four limits and four hysteresis bytes, and
    every limit lies between -2048 (included) and 2048 degrees. *)
Theorem read_all_alerts_total (s : MCP960X) :
  exists r s',
    read_all_alerts s = (Ok r, s') /\
    length (configs r) = 4%nat /\ length (limits r) = 4%nat /\
    length (hysteresis r) = 4%nat /\
    Forall (fun q => (-2048 <= q)%Q /\ (q < 2048)%Q) (limits r).
Proof.
  eexists _, _. split; [apply read_all_alerts_run|].
  cbn [configs limits hysteresis].
  rewrite !dev_read_length. repeat split.
  unfold limits_of. cbn [map].
  repeat constructor; apply limit_degrees_range.
Qed.

Lemma reg_of_length_1 (m : gmap Z (list byte)) (p r : Z) :
  length (reg_bytes (Device p m) r) = 1%nat -> exists b, m !! r = Some [b].
Proof.
  unfold reg_bytes. cbn.
  destruct (m !! r) as [[|b [|]]|]; try discriminate. now exists b.
Qed.

Lemma reg_of_length_2 (m : gmap Z (list byte)) (p r : Z) :
  length (reg_bytes (Device p m) r) = 2%nat -> exists b b', m !! r = Some [b; b'].
Proof.
  unfold reg_bytes. cbn.
  destruct (m !! r) as [[|b [|b' [|]]]|]; try discriminate. now exists b, b'.
Qed.

Lemma dev_read_4_at (p : Z) (m : gmap Z (list byte)) :
  dev_read (Device p m) 4 =
  take 4 ((default [] (m !! p) ++ default [] (m !! (p + 1)) ++
           default [] (m !! (p + 2)) ++ default [] (m !! (p + 3))) ++
          replicate 4 x00).
Proof.
  unfold dev_read, dev_stream, reg_bytes. cbn [pointer regs].
  replace (p + 1 + 1) with (p + 2) by lia.
  replace (p + 2 + 1) with (p + 3) by lia.
  now rewrite app_nil_r.
Qed.

Lemma dev_read_8_at (p : Z) (m : gmap Z (list byte)) :
  dev_read (Device p m) 8 =
  take 8 ((default [] (m !! p) ++ default [] (m !! (p + 1)) ++
           default [] (m !! (p + 2)) ++ default [] (m !! (p + 3)) ++
           default [] (m !! (p + 4)) ++ default [] (m !! (p + 5)) ++
           default [] (m !! (p + 6)) ++ default [] (m !! (p + 7))) ++
          replicate 8 x00).
Proof.
  unfold dev_read, dev_stream, reg_bytes. cbn [pointer regs].
  replace (p + 1 + 1) with (p + 2) by lia.
  replace (p + 2 + 1) with (p + 3) by lia.
  replace (p + 3 + 1) with (p + 4) by lia.
  replace (p + 4 + 1) with (p + 5) by lia.
  replace (p + 5 + 1) with (p + 6) by lia.
  replace (p + 6 + 1) with (p + 7) by lia.
  now rewrite app_nil_r.
Qed.

Ltac fold_consts :=
  repeat match goal with
         | |- context [Z.sub ?a ?b] =>
             let v := eval vm_compute in (Z.sub a b) in
             progress change (Z.sub a b) with v
         | |- context [Z.add ?a ?b] =>
             let v := eval vm_compute in (Z.add a b) in
             progress change (Z.add a b) with v
         | |- context [Z.to_nat ?a] =>
             let v := eval vm_compute in (Z.to_nat a) in
             progress change (Z.to_nat a) with v
         end.

Ltac reg_lookup :=
  repeat (rewrite lookup_insert_eq || rewrite lookup_insert_ne by (clear; lia)).

(** X12: on a device whose alert registers are present at their widths,
    what [set_alert] wrote for a channel in 1..4 is what [read_all_alerts]
    returns at that channel's position: the limit, for a limit of k steps
    with 0 <= k < 32768, the hysteresis clamped to 255, and the
    configuration byte. *)
Theorem set_alert_reads_back (alert_num k : Z) (enable : bool)
    (hyst : Z) (monitor : string) (rising active_low : bool)
    (mode : string) (clear_interrupt : bool) (s : MCP960X) :
  alert_registers_present (dev (i2c s)) ->
  1 <= alert_num <= 4 -> 0 <= k < 32768 -> 0 <= hyst ->
  let limit := (inject_Z k * (1 # 16))%Q in
  let i := Z.to_nat (alert_num - 1) in
  exists s1 r s2,
    set_alert alert_num enable limit hyst monitor rising active_low mode
              clear_interrupt s = (Ok tt, s1) /\
    read_all_alerts s1 = (Ok r, s2) /\
    limits r !! i = Some limit /\
    byte_val <$> hysteresis r !! i = Some (Z.min hyst 255) /\
    byte_val <$> configs r !! i =
      Some (alert_config_bits enable monitor rising active_low mode
                              clear_interrupt).
Proof.
  intros [H1 H2] Hn Hk Hh limit i.
  eexists _, _, _. split; [now apply set_alert_run|].
  split; [apply read_all_alerts_run|].
  cbn [with_i2c i2c dev regs configs limits hysteresis].
  rewrite !dev_read_4_at, dev_read_8_at.
  destruct s as [[[p m] l] a t r0 c0 i0]. cbn [dev i2c regs] in *.
  repeat (apply Forall_cons in H1 as [?%reg_of_length_1 H1]).
  repeat (apply Forall_cons in H2 as [?%reg_of_length_2 H2]).
  repeat match goal with H : exists _, _ |- _ => destruct H as [? H] end.
  pose proof (limit_counts_nonneg k Hk) as Hcounts. fold limit in Hcounts.
  unfold limit_counts in Hcounts.
  destruct (limit_bytes_range limit) as [Hhi Hlo].
  pose proof (alert_config_bits_range enable monitor rising active_low mode
                                      clear_interrupt) as Hcfg.
  destruct (channel_cases alert_num Hn) as [ -> | [ -> | [ -> | -> ] ] ];
    subst i; fold_consts; reg_lookup;
    repeat match goal with H : _ !! _ = Some _ |- _ => rewrite H; clear H end;
    cbn [default from_option id app take replicate limits_of map nth Nat.add
         lookup list_lookup fmap option_fmap option_map];
    rewrite ?byte_val_of by lia; rewrite ?Hcounts; repeat split.
Qed.

Lemma sample_alert_registers_present :
  alert_registers_present (dev (i2c sample_handle)).
Proof. split; repeat constructor. Qed.

Lemma set_alert_reads_back_witness :
  let limit := (inject_Z 600 * (1 # 16))%Q in
  let i := Z.to_nat (2 - 1) in
  exists s1 r s2,
    set_alert 2 true limit 300 "TH" true false "comparator" false
              sample_handle = (Ok tt, s1) /\
    read_all_alerts s1 = (Ok r, s2) /\
    limits r !! i = Some limit /\
    byte_val <$> hysteresis r !! i = Some (Z.min 300 255) /\
    byte_val <$> configs r !! i =
      Some (alert_config_bits true "TH" true false "comparator" false).
Proof.
  apply (set_alert_reads_back 2 600 true 300 "TH" true false "comparator"
           false sample_handle sample_alert_registers_present); lia.
Defined.

(** ** The example set-up *)

(** X13: the alert set-up of the Celsius example passes
    [min(0, ALERT_HYST)] as hysteresis, so for every constant
    [ALERT_HYST >= 0], a temperature constant between -2048 and 2048 degrees
    and a channel in 1..4 the call succeeds and its second write stores 0 in
    the hysteresis register of the channel, whatever the register held. *)
Theorem example_set_alert_zero_hysteresis (alert_num ALERT_TEMP ALERT_HYST : Z)
    (s : MCP960X) :
  1 <= alert_num <= 4 -> -2048 < ALERT_TEMP < 2048 -> 0 <= ALERT_HYST ->
  exists s',
    example_set_alert alert_num ALERT_TEMP ALERT_HYST s = (Ok tt, s') /\
    reg_byte (dev (i2c s')) (REG_ALERT_HYSTERESIS + (alert_num - 1)) = Some 0 /\
    let k := alert_num - 1 in
    write_summary <$> new_events s s' =
      [Some (0x10 + k, [limit_hi (inject_Z ALERT_TEMP);
                        limit_lo (inject_Z ALERT_TEMP)]);
       Some (0x0C + k, [0]);
       Some (0x08 + k,
             [alert_config_bits true "TH" (if 0 <? ALERT_TEMP then true else false)
                                false "comparator" false])].
Proof.
  intros Hn Htemp Hh. unfold example_set_alert.
  replace (Z.min 0 ALERT_HYST) with 0 by lia.
  eexists. split; [apply set_alert_run; lia|]. split.
  - cbn [with_i2c i2c dev]. unfold reg_byte, REG_ALERT_HYSTERESIS. cbn [regs].
    rewrite lookup_insert_ne by lia. rewrite lookup_insert_eq. reflexivity.
  - cbv zeta.
    erewrite new_events_app by (cbn [with_i2c i2c log]; reflexivity).
    destruct (limit_bytes_range (inject_Z ALERT_TEMP)) as [Hhi Hlo].
    pose proof (alert_config_bits_range true "TH"
                  (if 0 <? ALERT_TEMP then true else false) false
                  "comparator" false).
    cbn [fmap list_fmap write_summary].
    rewrite !byte_val_of by lia. reflexivity.
Qed.

Lemma example_set_alert_zero_hysteresis_witness :
  let s0 := snd (set_alert 1 true 150%Q 10 "TH" true false "comparator" false
                           sample_handle) in
  reg_byte (dev (i2c s0)) (REG_ALERT_HYSTERESIS + (1 - 1)) = Some 10 /\
  exists s',
    example_set_alert 1 100 20 s0 = (Ok tt, s') /\
    reg_byte (dev (i2c s')) (REG_ALERT_HYSTERESIS + (1 - 1)) = Some 0 /\
    let k := 1 - 1 in
    write_summary <$> new_events s0 s' =
      [Some (0x10 + k, [limit_hi (inject_Z 100); limit_lo (inject_Z 100)]);
       Some (0x0C + k, [0]);
       Some (0x08 + k,
             [alert_config_bits true "TH" (if 0 <? 100 then true else false)
                                false "comparator" false])].
Proof.
  split; [reflexivity|].
  apply (example_set_alert_zero_hysteresis 1 100 20); lia.
Defined.

(** ** Bytes by enumeration *)

Lemma all_bytes (P : Z -> bool) :
  forallb P (map Z.of_nat (seq 0 256)) = true ->
  forall x, 0 <= x < 256 -> P x = true.
Proof.
  intros H x Hx. rewrite forallb_forall in H. apply H.
  apply in_map_iff. exists (Z.to_nat x). split; [lia|].
  apply in_seq. lia.
Qed.

Lemma type_field_of_write (x code : Z) :
  0 <= x < 256 -> 0 <= code <= 7 ->
  Z.land (Z.shiftr (Z.lor (Z.land x 0x8F) (Z.shiftl code 4)) 4) 0x07 = code.
Proof.
  intros Hx Hc.
  assert (code = 0 \/ code = 1 \/ code = 2 \/ code = 3 \/ code = 4 \/
          code = 5 \/ code = 6 \/ code = 7) as Hcases by lia.
  repeat destruct Hcases as [-> | Hcases]; try subst code;
    apply Z.eqb_eq;
    apply (all_bytes (fun x => Z.land (Z.shiftr (Z.lor (Z.land x 0x8F)
                                                       (Z.shiftl _ 4)) 4) 0x07
                               =? _)); try assumption; vm_compute; reflexivity.
Qed.

Lemma type_field_after_filter (y v : Z) :
  0 <= y < 256 -> 0 <= v <= 7 ->
  Z.land (Z.shiftr (Z.lor (Z.land y 0xF8) v) 4) 0x07 = Z.land (Z.shiftr y 4) 0x07.
Proof.
  intros Hy Hv.
  assert (v = 0 \/ v = 1 \/ v = 2 \/ v = 3 \/ v = 4 \/
          v = 5 \/ v = 6 \/ v = 7) as Hcases by lia.
  repeat destruct Hcases as [-> | Hcases]; try subst v;
    apply Z.eqb_eq;
    apply (all_bytes (fun y => Z.land (Z.shiftr (Z.lor (Z.land y 0xF8) _) 4) 0x07
                               =? Z.land (Z.shiftr y 4) 0x07));
    try assumption; vm_compute; reflexivity.
Qed.

Lemma filter_field_after_type (y code : Z) :
  0 <= y < 256 -> 0 <= code <= 7 ->
  Z.land (Z.lor (Z.land y 0x8F) (Z.shiftl code 4)) 0x07 = Z.land y 0x07.
Proof.
  intros Hy Hc.
  assert (code = 0 \/ code = 1 \/ code = 2 \/ code = 3 \/ code = 4 \/
          code = 5 \/ code = 6 \/ code = 7) as Hcases by lia.
  repeat destruct Hcases as [-> | Hcases]; try subst code;
    apply Z.eqb_eq;
    apply (all_bytes (fun y => Z.land (Z.lor (Z.land y 0x8F) (Z.shiftl _ 4)) 0x07
                               =? Z.land y 0x07));
    try assumption; vm_compute; reflexivity.
Qed.

Lemma resolution_bits_after_power_mode (y c : Z) :
  0 <= y < 256 -> 0 <= c <= 2 ->
  config_adc_bits (Z.lor (Z.land y 0xFC) c) = config_adc_bits y /\
  config_cold_res (Z.lor (Z.land y 0xFC) c) = config_cold_res y.
Proof.
  intros Hy Hc.
  assert (c = 0 \/ c = 1 \/ c = 2) as Hcases by lia.
  assert (forall c0, c0 = 0 \/ c0 = 1 \/ c0 = 2 ->
            (config_adc_bits (Z.lor (Z.land y 0xFC) c0) =? config_adc_bits y)
            && Z.eqb (Z.b2z (Z.testbit (Z.lor (Z.land y 0xFC) c0) 7))
                     (Z.b2z (Z.testbit y 7)) = true) as H.
  { intros c0 [-> | [-> | ->]];
      apply (all_bytes (fun y =>
               (config_adc_bits (Z.lor (Z.land y 0xFC) _) =? config_adc_bits y)
               && Z.eqb (Z.b2z (Z.testbit (Z.lor (Z.land y 0xFC) _) 7))
                        (Z.b2z (Z.testbit y 7))));
      try assumption; vm_compute; reflexivity. }
  specialize (H c Hcases). apply andb_true_iff in H as [Ha Hb].
  apply Z.eqb_eq in Ha. apply Z.eqb_eq in Hb.
  split; [exact Ha|]. unfold config_cold_res.
  destruct (Z.testbit (Z.lor (Z.land y 0xFC) c) 7), (Z.testbit y 7);
    cbn in Hb; congruence.
Qed.

(** ** Thermocouple type and filter, continued *)

Lemma upper_ascii_idem (c : ascii) : upper_ascii (upper_ascii c) = upper_ascii c.
Proof. destruct c as [[] [] [] [] [] [] [] []]; reflexivity. Qed.

Lemma upper_idem (t : string) : upper (upper t) = upper t.
Proof.
  induction t as [|c t IH]; cbn; [reflexivity|].
  now rewrite upper_ascii_idem, IH.
Qed.

(** X14: the type letter is taken without regard to case:
    [set_thermocouple_type] does on a string what it does on its upper-case
    form, so 'k' and 'K' select the same type, in every state. *)
Theorem set_thermocouple_type_ignores_case (type_char : string) (s : MCP960X) :
  set_thermocouple_type (upper type_char) s = set_thermocouple_type type_char s.
Proof. unfold set_thermocouple_type. now rewrite upper_idem. Qed.

Lemma thermocouple_letter_known (k : string) :
  k ∈ thermocouple_letters <->
  exists code, dict_find String.eqb THERMOCOUPLE_TYPES k = Some code.
Proof.
  unfold thermocouple_letters, THERMOCOUPLE_TYPES. cbn [dict_find].
  rewrite !elem_of_cons, elem_of_nil.
  repeat match goal with
         | |- context [String.eqb k ?t] => destruct (String.eqb_spec k t) as [->|]
         end;
    try (split; [intros _; eexists; reflexivity|tauto]).
  split; [tauto|]. intros [code H]. discriminate.
Qed.

(** X15: for a letter that is none of K, J, T, N, S, E, B, R in either case
    [set_thermocouple_type] raises the key error after its one-byte read;
    it writes nothing, and every register keeps its contents. *)
Theorem set_thermocouple_type_rejects_unknown (type_char : string)
    (s : MCP960X) :
  upper type_char ∉ thermocouple_letters ->
  exists s',
    set_thermocouple_type type_char s = (Raise KeyError, s') /\
    device_regs s' = device_regs s /\
    forallb (fun ev => negb (is_bus_write ev)) (new_events s s') = true.
Proof.
  intros Hk.
  assert (dict_find String.eqb THERMOCOUPLE_TYPES (upper type_char) = None) as E.
  { destruct (dict_find _ _ _) as [code|] eqn:E; [|reflexivity].
    exfalso. apply Hk, thermocouple_letter_known. now exists code. }
  eexists. split; [now apply set_thermocouple_type_unknown|].
  split; [reflexivity|].
  erewrite new_events_app by (cbn [with_i2c i2c log]; reflexivity).
  reflexivity.
Qed.

Lemma set_thermocouple_type_rejects_unknown_witness :
  exists s',
    set_thermocouple_type "x" sample_handle = (Raise KeyError, s') /\
    device_regs s' = device_regs sample_handle /\
    forallb (fun ev => negb (is_bus_write ev)) (new_events sample_handle s')
    = true.
Proof.
  apply (set_thermocouple_type_rejects_unknown "x" sample_handle).
  vm_compute. intros H. repeat (apply elem_of_cons in H as [H|H]; [discriminate|]).
  now apply elem_of_nil in H.
Defined.

Lemma cur_byte_after_write (p : Z) (b : byte) (m : gmap Z (list byte)) :
  cur_byte (Device p (<[p := [b]]> m)) = b.
Proof. unfold cur_byte, reg_bytes. cbn. now rewrite lookup_insert_eq. Qed.

Lemma type_field_insert (m : gmap Z (list byte)) (p : Z) (b : byte) :
  type_field (Device p (<[5 := [b]]> m)) =
  Some (Z.land (Z.shiftr (byte_val b) 4) 0x07).
Proof. unfold type_field, REG_THERMO_CONFIG. now rewrite reg_byte_insert. Qed.

Lemma filter_field_insert (m : gmap Z (list byte)) (p : Z) (b : byte) :
  filter_field (Device p (<[5 := [b]]> m)) = Some (Z.land (byte_val b) 0x07).
Proof. unfold filter_field, REG_THERMO_CONFIG. now rewrite reg_byte_insert. Qed.

(** X16: for each of the eight letters, in either case and in every state
    of the device, [set_thermocouple_type] succeeds with one read and one
    write, and bits 4-6 of the thermocouple-config register then hold the
    code of the letter. *)
Theorem set_thermocouple_type_sets_field (type_char : string) (code : Z)
    (s : MCP960X) :
  dict_find String.eqb THERMOCOUPLE_TYPES (upper type_char) = Some code ->
  exists s',
    set_thermocouple_type type_char s = (Ok tt, s') /\
    type_field (dev (i2c s')) = Some code /\
    is_bus_write <$> new_events s s' = [false; true].
Proof.
  intros Hcode.
  destruct (set_thermocouple_type_run type_char code s Hcode) as (b & Hrun & Hb).
  eexists. split; [exact Hrun|]. cbn [with_i2c i2c dev]. split.
  - rewrite type_field_insert, Hb. f_equal.
    apply type_field_of_write; [apply byte_val_range|].
    now apply thermocouple_code_range in Hcode.
  - erewrite new_events_app by (cbn [with_i2c i2c log]; reflexivity).
    reflexivity.
Qed.

Lemma set_thermocouple_type_sets_field_witness :
  exists s',
    set_thermocouple_type "t" sample_handle = (Ok tt, s') /\
    type_field (dev (i2c s')) = Some 2 /\
    is_bus_write <$> new_events sample_handle s' = [false; true].
Proof.
  apply (set_thermocouple_type_sets_field "t" 2 sample_handle). reflexivity.
Defined.

(** X17: a negative filter coefficient is not clamped: [set_filter_coefficient]
    raises the value error of [bytes] after its one-byte read, writes
    nothing, and every register keeps its contents. *)
Theorem set_filter_coefficient_rejects_negative (n : Z) (s : MCP960X) :
  n < 0 ->
  exists msg s',
    set_filter_coefficient n s = (Raise (ValueError msg), s') /\
    device_regs s' = device_regs s /\
    forallb (fun ev => negb (is_bus_write ev)) (new_events s s') = true.
Proof.
  intros Hn. eexists _, _.
  split; [now apply set_filter_coefficient_negative|].
  split; [reflexivity|].
  erewrite new_events_app by (cbn [with_i2c i2c log]; reflexivity).
  reflexivity.
Qed.

Lemma set_filter_coefficient_rejects_negative_witness :
  exists msg s',
    set_filter_coefficient (-3) sample_handle = (Raise (ValueError msg), s') /\
    device_regs s' = device_regs sample_handle /\
    forallb (fun ev => negb (is_bus_write ev)) (new_events sample_handle s')
    = true.
Proof.
  apply (set_filter_coefficient_rejects_negative (-3) sample_handle). lia.
Defined.

Lemma configure_type_then_filter (type_char : string) (code n : Z)
    (s : MCP960X) :
  dict_find String.eqb THERMOCOUPLE_TYPES (upper type_char) = Some code ->
  0 <= n ->
  exists s1 s2,
    set_thermocouple_type type_char s = (Ok tt, s1) /\
    set_filter_coefficient n s1 = (Ok tt, s2) /\
    type_field (dev (i2c s2)) = Some code /\
    filter_field (dev (i2c s2)) = Some (Z.min n 7).
Proof.
  intros Hcode Hn.
  pose proof (thermocouple_code_range _ _ Hcode) as Hrange.
  destruct (set_thermocouple_type_run type_char code s Hcode) as (b & H1 & Hb).
  eexists. 
  destruct (set_filter_coefficient_run n
              (snd (set_thermocouple_type type_char s)) Hn) as (b2 & H2 & Hb2).
  rewrite H1 in H2, Hb2. cbn [snd with_i2c i2c dev regs log] in H2, Hb2.
  rewrite cur_byte_after_write in H2, Hb2.
  eexists. split; [exact H1|]. split; [exact H2|].
  cbn [with_i2c i2c dev].
  rewrite type_field_insert, filter_field_insert, Hb2. split; f_equal.
  - rewrite type_field_after_filter by (try apply byte_val_range; lia).
    rewrite Hb. apply type_field_of_write; [apply byte_val_range|assumption].
  - apply field_of_lor; [reflexivity|now apply min7_field].
Qed.

Lemma configure_filter_then_type (type_char : string) (code n : Z)
    (s : MCP960X) :
  dict_find String.eqb THERMOCOUPLE_TYPES (upper type_char) = Some code ->
  0 <= n ->
  exists s1 s2,
    set_filter_coefficient n s = (Ok tt, s1) /\
    set_thermocouple_type type_char s1 = (Ok tt, s2) /\
    type_field (dev (i2c s2)) = Some code /\
    filter_field (dev (i2c s2)) = Some (Z.min n 7).
Proof.
  intros Hcode Hn.
  pose proof (thermocouple_code_range _ _ Hcode) as Hrange.
  destruct (set_filter_coefficient_run n s Hn) as (b & H1 & Hb).
  eexists.
  destruct (set_thermocouple_type_run type_char code
              (snd (set_filter_coefficient n s)) Hcode) as (b2 & H2 & Hb2).
  rewrite H1 in H2, Hb2. cbn [snd with_i2c i2c dev regs log] in H2, Hb2.
  rewrite cur_byte_after_write in H2, Hb2.
  eexists. split; [exact H1|]. split; [exact H2|].
  cbn [with_i2c i2c dev].
  rewrite type_field_insert, filter_field_insert, Hb2. split; f_equal.
  - apply type_field_of_write; [apply byte_val_range|assumption].
  - rewrite filter_field_after_type by (try apply byte_val_range; lia).
    rewrite Hb. apply field_of_lor; [reflexivity|now apply min7_field].
Qed.

(** X18: the two fields of the thermocouple-config register compose: after
    [set_thermocouple_type] and [set_filter_coefficient] called one right
    after the other, in either order, for a known letter and a coefficient
    that is not negative, bits 4-6 hold the type code and bits 0-2 hold
    min(n, 7). *)
Theorem thermocouple_config_fields_compose (type_char : string) (code n : Z)
    (s : MCP960X) :
  dict_find String.eqb THERMOCOUPLE_TYPES (upper type_char) = Some code ->
  0 <= n ->
  (exists s1 s2,
      set_thermocouple_type type_char s = (Ok tt, s1) /\
      set_filter_coefficient n s1 = (Ok tt, s2) /\
      type_field (dev (i2c s2)) = Some code /\
      filter_field (dev (i2c s2)) = Some (Z.min n 7)) /\
  (exists s1 s2,
      set_filter_coefficient n s = (Ok tt, s1) /\
      set_thermocouple_type type_char s1 = (Ok tt, s2) /\
      type_field (dev (i2c s2)) = Some code /\
      filter_field (dev (i2c s2)) = Some (Z.min n 7)).
Proof.
  intros Hcode Hn. split.
  - now apply configure_type_then_filter.
  - now apply configure_filter_then_type.
Qed.

Lemma thermocouple_config_fields_compose_witness :
  (exists s1 s2,
      set_thermocouple_type "e" sample_handle = (Ok tt, s1) /\
      set_filter_coefficient 9 s1 = (Ok tt, s2) /\
      type_field (dev (i2c s2)) = Some 5 /\
      filter_field (dev (i2c s2)) = Some (Z.min 9 7)) /\
  (exists s1 s2,
      set_filter_coefficient 9 sample_handle = (Ok tt, s1) /\
      set_thermocouple_type "e" s1 = (Ok tt, s2) /\
      type_field (dev (i2c s2)) = Some 5 /\
      filter_field (dev (i2c s2)) = Some (Z.min 9 7)).
Proof.
  apply (thermocouple_config_fields_compose "e" 5 9 sample_handle);
    [reflexivity|lia].
Defined.

(** ** Construction *)

Lemma bind_Ok {A B} (m : M A) (k : A -> M B) s a s' :
  m s = (Ok a, s') -> bind m k s = k a s'.
Proof. intros H. unfold bind. now rewrite H. Qed.

Lemma bind_Raise {A B} (m : M A) (k : A -> M B) s e s' :
  m s = (Raise e, s') -> bind m k s = (Raise e, s').
Proof. intros H. unfold bind. now rewrite H. Qed.

Lemma dev_read_2 (d : device) : exists b0 b1, dev_read d 2 = [b0; b1].
Proof.
  pose proof (dev_read_length d 2) as H.
  destruct (dev_read d 2) as [|b0 [|b1 [|]]]; try discriminate.
  now exists b0, b1.
Qed.

Lemma get_device_id_and_revision_run (s : MCP960X) (b0 b1 : byte) :
  let d := Device 0x20 (regs (dev (i2c s))) in
  dev_read d 2 = [b0; b1] ->
  get_device_id_and_revision s =
    (Ok (byte_val b0, byte_val b1),
     with_i2c s (Bus d (log (i2c s) ++ [BusWrite [x20]; BusRead [b0; b1]]))).
Proof.
  intros d E. subst d. destruct s as [[d l] a t r c i].
  cbn [dev i2c log regs] in *.
  unfold get_device_id_and_revision. munfold. cbn.
  change (mk_byte 32) with (Some x20). cbn. rewrite E. cbn.
  now rewrite <- app_assoc.
Qed.

Lemma type_field_other (m : gmap Z (list byte)) (p p' r : Z) (v : list byte) :
  r <> 5 -> type_field (Device p (<[r := v]> m)) = type_field (Device p' m).
Proof.
  intros H. unfold type_field, reg_byte, REG_THERMO_CONFIG. cbn.
  now rewrite lookup_insert_ne.
Qed.

Lemma filter_field_other (m : gmap Z (list byte)) (p p' r : Z) (v : list byte) :
  r <> 5 -> filter_field (Device p (<[r := v]> m)) = filter_field (Device p' m).
Proof.
  intros H. unfold filter_field, reg_byte, REG_THERMO_CONFIG. cbn.
  now rewrite lookup_insert_ne.
Qed.

Lemma set_resolution_default_run (s : MCP960X) :
  set_resolution 18 (1 # 16)%Q s =
    (Ok tt,
     Handle (Bus (Device 6 (<[6 := [x00]]> (regs (dev (i2c s)))))
                 (log (i2c s) ++ [BusWrite [x06; x00]]))
            (address s) (_t_stretch s) 18 (1 # 16)%Q (dev_id s)).
Proof.
  destruct s as [[d l] a t r c i].
  unfold set_resolution. rewrite adc_fallback, cold_fallback.
  munfold. cbn.
  change (mk_byte 6) with (Some x06). change (mk_byte 0) with (Some x00).
  reflexivity.
Qed.

(** X19: for a known type letter and a filter coefficient that is not
    negative the construction completes, with these seven bus transactions:
    the pointer write 0x20 and the two-byte identity read; a one-byte read
    that still comes from the identity register, since no register is
    selected in between, and the write of that byte, masked with 0x8F and
    with the type code in bits 4-6, to the thermocouple-config register; a
    one-byte read of the thermocouple-config register and the write of that
    byte, masked with 0xF8 and with min(tcfilter, 7) in bits 0-2, to the same
    register; the write of 0x00 to the device-config register.  The object
    then caches the first identity byte, the address it was given and the
    resolutions 18 and 0.0625, and the device holds the type code in
    bits 4-6 and min(tcfilter, 7) in bits 0-2 of the thermocouple-config
    register and 00 in the power-mode bits. *)
Theorem construction_completes (bus : I2C) (addr : Z) (tctype : string)
    (tcfilter : Z) (cold : Q) (adc : Z) (code : Z) :
  dict_find String.eqb THERMOCOUPLE_TYPES (upper tctype) = Some code ->
  0 <= tcfilter ->
  exists b0 b1 b b2 s',
    let cur := cur_byte (Device 0x20 (regs (dev bus))) in
    dev_read (Device 0x20 (regs (dev bus))) 2 = [b0; b1] /\
    __init__ bus addr tctype tcfilter cold adc = (Ok tt, s') /\
    dev_id s' = byte_val b0 /\ address s' = addr /\
    cached s' = (18, (1 # 16)%Q) /\
    type_field (dev (i2c s')) = Some code /\
    filter_field (dev (i2c s')) = Some (Z.min tcfilter 7) /\
    power_mode_bits (dev (i2c s')) = Some 0 /\
    drop (length (log bus)) (log (i2c s')) =
      [BusWrite [x20]; BusRead [b0; b1];
       BusRead [cur]; BusWrite [x05; b];
       BusRead [b]; BusWrite [x05; b2];
       BusWrite [x06; x00]] /\
    byte_val b = Z.lor (Z.land (byte_val cur) 0x8F) (Z.shiftl code 4) /\
    byte_val b2 = Z.lor (Z.land (byte_val b) 0xF8) (Z.min tcfilter 7).
Proof.
  intros Hcode Hn.
  pose proof (thermocouple_code_range _ _ Hcode) as Hrange.
  destruct (dev_read_2 (Device 0x20 (regs (dev bus)))) as (b0 & b1 & E).
  exists b0, b1.
  set (s0 := Handle bus addr 60 adc cold 0).
  pose proof (get_device_id_and_revision_run s0 b0 b1 E) as H0.
  set (s1 := set_dev_id (byte_val b0) (snd (get_device_id_and_revision s0))).
  destruct (set_thermocouple_type_run tctype code (snd s1) Hcode)
    as (b & H1 & Hb).
  destruct (set_filter_coefficient_run tcfilter
              (snd (set_thermocouple_type tctype (snd s1))) Hn)
    as (b2 & H2 & Hb2).
  pose proof (set_resolution_default_run
                (snd (set_filter_coefficient tcfilter
                        (snd (set_thermocouple_type tctype (snd s1)))))) as H3.
  exists b, b2. eexists. cbv zeta. split; [exact E|].
  unfold __init__. fold s0.
  subst s1. rewrite H0 in *. cbn [snd fst set_dev_id with_i2c i2c dev regs log
    address _t_stretch _adc_resolution _cold_junction_res dev_id] in *.
  rewrite H1 in *. cbn [snd with_i2c i2c dev regs log
    address _t_stretch _adc_resolution _cold_junction_res dev_id] in *.
  rewrite cur_byte_after_write in *.
  rewrite H2 in *. cbn [snd with_i2c i2c dev regs log
    address _t_stretch _adc_resolution _cold_junction_res dev_id] in *.
  split.
  { erewrite bind_Ok by exact H0. cbn [fst].
    erewrite bind_Ok by reflexivity.
    erewrite bind_Ok by exact H1.
    erewrite bind_Ok by exact H2.
    exact H3. }
  cbn [dev_id address cached _adc_resolution _cold_junction_res i2c dev log].
  repeat split.
  - rewrite (type_field_other _ 6 5) by lia. rewrite type_field_insert, Hb2.
    f_equal. rewrite type_field_after_filter by (try apply byte_val_range; lia).
    rewrite Hb. apply type_field_of_write; [apply byte_val_range|assumption].
  - rewrite (filter_field_other _ 6 5) by lia.
    rewrite filter_field_insert, Hb2. f_equal.
    apply field_of_lor; [reflexivity|now apply min7_field].
  - now rewrite power_mode_bits_insert.
  - subst s0. cbn [with_i2c i2c log]. rewrite <- !app_assoc.
    rewrite drop_app_length. reflexivity.
  - exact Hb.
  - exact Hb2.
Qed.

Lemma construction_completes_witness :
  exists b0 b1 b b2 s',
    let cur := cur_byte (Device 0x20 (regs (dev (Bus sample_device [])))) in
    dev_read (Device 0x20 (regs (dev (Bus sample_device [])))) 2 = [b0; b1] /\
    __init__ (Bus sample_device []) 0x67 "k" 4 (1 # 4)%Q 12 = (Ok tt, s') /\
    dev_id s' = byte_val b0 /\ address s' = 0x67 /\
    cached s' = (18, (1 # 16)%Q) /\
    type_field (dev (i2c s')) = Some 0 /\
    filter_field (dev (i2c s')) = Some (Z.min 4 7) /\
    power_mode_bits (dev (i2c s')) = Some 0 /\
    drop (length (log (Bus sample_device []))) (log (i2c s')) =
      [BusWrite [x20]; BusRead [b0; b1];
       BusRead [cur]; BusWrite [x05; b];
       BusRead [b]; BusWrite [x05; b2];
       BusWrite [x06; x00]] /\
    byte_val b = Z.lor (Z.land (byte_val cur) 0x8F) (Z.shiftl 0 4) /\
    byte_val b2 = Z.lor (Z.land (byte_val b) 0xF8) (Z.min 4 7).
Proof.
  apply (construction_completes (Bus sample_device []) 0x67 "k" 4 (1 # 4)%Q 12 0);
    [reflexivity|lia].
Defined.

(** X20: the construction fails in two ways.  For a type letter that is not
    known it raises the key error after the identity read and one more read,
    with no register written.  For a known letter and a negative filter
    coefficient it raises the value error of [bytes] after the type has been
    written, and the device-config register is not written. *)
Theorem construction_fails (bus : I2C) (addr : Z) (tctype : string)
    (tcfilter : Z) (cold : Q) (adc : Z) :
  (upper tctype ∉ thermocouple_letters ->
   exists s', __init__ bus addr tctype tcfilter cold adc = (Raise KeyError, s') /\
              device_regs s' = regs (dev bus)) /\
  (upper tctype ∈ thermocouple_letters -> tcfilter < 0 ->
   exists msg s' code,
     __init__ bus addr tctype tcfilter cold adc = (Raise (ValueError msg), s') /\
     dict_find String.eqb THERMOCOUPLE_TYPES (upper tctype) = Some code /\
     type_field (dev (i2c s')) = Some code /\
     device_regs s' !! REG_DEVICE_CONFIG = regs (dev bus) !! REG_DEVICE_CONFIG).
Proof.
  destruct (dev_read_2 (Device 0x20 (regs (dev bus)))) as (b0 & b1 & E).
  set (s0 := Handle bus addr 60 adc cold 0).
  pose proof (get_device_id_and_revision_run s0 b0 b1 E) as H0.
  split.
  - intros Hk.
    assert (dict_find String.eqb THERMOCOUPLE_TYPES (upper tctype) = None) as En.
    { destruct (dict_find _ _ _) as [code|] eqn:En; [|reflexivity].
      exfalso. apply Hk, thermocouple_letter_known. now exists code. }
    eexists. unfold __init__. fold s0. split.
    + erewrite bind_Ok by exact H0. cbn [fst].
      erewrite bind_Ok by reflexivity.
      erewrite bind_Raise; [reflexivity|].
      now apply set_thermocouple_type_unknown.
    + reflexivity.
  - intros Hk Hn. apply thermocouple_letter_known in Hk as [code Hcode].
    pose proof (thermocouple_code_range _ _ Hcode) as Hrange.
    set (s1 := snd (set_dev_id (byte_val b0)
                      (snd (get_device_id_and_revision s0)))).
    destruct (set_thermocouple_type_run tctype code s1 Hcode) as (b & H1 & Hb).
    pose proof (set_filter_coefficient_negative tcfilter
                  (snd (set_thermocouple_type tctype s1)) Hn) as H2.
    subst s1. rewrite H0 in *.
    cbn [snd fst set_dev_id with_i2c i2c dev regs log] in *.
    rewrite H1 in *. cbn [snd with_i2c i2c dev regs log] in *.
    eexists _, _, code. split.
    + unfold __init__. fold s0.
      erewrite bind_Ok by exact H0. cbn [fst].
      erewrite bind_Ok by reflexivity.
      erewrite bind_Ok by exact H1.
      erewrite bind_Raise; [reflexivity|exact H2].
    + split; [exact Hcode|]. unfold device_regs.
      cbn [with_i2c i2c dev regs]. split.
      * rewrite type_field_insert, Hb. f_equal.
        apply type_field_of_write; [apply byte_val_range|assumption].
      * unfold REG_DEVICE_CONFIG. now rewrite lookup_insert_ne by lia.
Qed.

Lemma construction_fails_witness :
  (exists s',
      __init__ (Bus sample_device []) 0x67 "Q" 4 (1 # 16)%Q 18
      = (Raise KeyError, s') /\
      device_regs s' = regs (dev (Bus sample_device []))) /\
  (exists msg s' code,
      __init__ (Bus sample_device []) 0x67 "j" (-1) (1 # 16)%Q 18
      = (Raise (ValueError msg), s') /\
      dict_find String.eqb THERMOCOUPLE_TYPES (upper "j") = Some code /\
      type_field (dev (i2c s')) = Some code /\
      device_regs s' !! REG_DEVICE_CONFIG =
      regs (dev (Bus sample_device [])) !! REG_DEVICE_CONFIG).
Proof.
  split.
  - apply (proj1 (construction_fails (Bus sample_device []) 0x67 "Q" 4
                                     (1 # 16)%Q 18)).
    vm_compute. intros H.
    repeat (apply elem_of_cons in H as [H|H]; [discriminate|]).
    now apply elem_of_nil in H.
  - apply (proj2 (construction_fails (Bus sample_device []) 0x67 "j" (-1)
                                     (1 # 16)%Q 18)); [|lia].
    vm_compute. apply elem_of_cons. right. apply elem_of_cons. now left.
Defined.

(** ** Power mode after resolution *)

(** X21: called right after [set_resolution], [set_power_mode] is a correct
    read-modify-write of the device-config register: it succeeds, bits 0-1
    take the code of the mode (01 shutdown, 10 burst, 00 otherwise) and the
    byte written still encodes the cached resolutions. *)
Theorem set_power_mode_after_set_resolution (adc : Z) (cold : Q)
    (mode : string) (s : MCP960X) :
  exists s1 s2,
    set_resolution adc cold s = (Ok tt, s1) /\
    set_power_mode mode s1 = (Ok tt, s2) /\
    power_mode_bits (dev (i2c s2)) = Some (power_mode_code mode) /\
    cached s2 = cached s1 /\
    cache_consistent s2.
Proof.
  destruct (set_resolution_run adc cold s) as (b & H1 & Ha & Hc & _).
  destruct (set_power_mode_run mode (snd (set_resolution adc cold s)))
    as (b2 & H2 & Hb2).
  rewrite H1 in H2, Hb2. cbn [snd with_i2c i2c dev regs log] in H2, Hb2.
  rewrite cur_byte_after_write in H2, Hb2.
  assert (0 <= power_mode_code mode <= 2) as Hm.
  { unfold power_mode_code. destruct (String.eqb mode "shutdown"); [lia|].
    destruct (String.eqb mode "burst"); lia. }
  destruct (resolution_bits_after_power_mode (byte_val b) (power_mode_code mode)
              (byte_val_range b) Hm) as [Hadc Hcold].
  eexists _, _. split; [exact H1|]. split; [exact H2|].
  cbn [with_i2c i2c dev log cached _adc_resolution _cold_junction_res].
  split; [|split; [reflexivity|]].
  - rewrite power_mode_bits_insert, Hb2. f_equal.
    apply field_of_lor; [reflexivity|].
    assert (power_mode_code mode = 0 \/ power_mode_code mode = 1 \/
            power_mode_code mode = 2) as [-> | [-> | ->]] by lia; reflexivity.
  - exists b2. cbn [i2c log _adc_resolution _cold_junction_res].
    split; [|split].
    + change [BusRead [b]; BusWrite [x06; b2]]
        with ([BusRead [b]] ++ [BusWrite [x06; b2]]).
      rewrite app_assoc. now apply last_write_to_snoc.
    + now rewrite Hb2, Hadc.
    + now rewrite Hb2, Hcold.
Qed.

(** ** Alert status, continued *)

Lemma get_alerts_valid_items (sel : selector) (l : list Z) (s : MCP960X) :
  selector_items sel = Some l ->
  Forall (fun c => valid_channel c = true) l ->
  let d := Device 4 (regs (dev (i2c s))) in
  get_alerts sel s =
    (Ok (alerts_fold (byte_val (cur_byte d)) l ∅),
     with_i2c s (Bus d (log (i2c s) ++ [BusWrite [x04]; BusRead [cur_byte d]]))).
Proof.
  intros Hsel Hall d. rewrite get_alerts_items. fold d.
  assert (iter (match sel with PyNone => PyRange 1 5 | other => other end)
          = ret l) as ->.
  { destruct sel; cbn in Hsel; try discriminate; injection Hsel as <-;
      reflexivity. }
  unfold bind at 1. unfold ret at 1.
  apply alerts_loop_valid. now apply first_invalid_None.
Qed.

(** X22: for no selector, a list or a range whose channels all lie in 1..4,
    [get_alerts] succeeds after one pointer write and one one-byte read of
    the status register; the keys of the mapping are exactly the strings
    [str(c)] of the requested channels, and the entry of channel c is bit
    [c - 1] of the status byte. *)
Theorem get_alerts_mapping (sel : selector) (l : list Z) (s : MCP960X) :
  selector_items sel = Some l ->
  Forall (fun c => 1 <= c <= 4) l ->
  let d := Device 4 (device_regs s) in
  exists m s',
    get_alerts sel s = (Ok m, s') /\
    new_events s s' = [BusWrite [x04]; BusRead [cur_byte d]] /\
    dom m = list_to_set (str <$> l) /\
    forall c, c ∈ l -> m !! str c = Some (Z.testbit (byte_val (cur_byte d)) (c - 1)).
Proof.
  intros Hsel Hall d.
  assert (Forall (fun c => valid_channel c = true) l) as Hvalid.
  { eapply Forall_impl; [exact Hall|]. intros c Hc. now apply valid_channel_range. }
  eexists _, _. split; [apply (get_alerts_valid_items sel l s Hsel Hvalid)|].
  split; [|split].
  - apply new_events_app. reflexivity.
  - apply set_eq. intros k.
    rewrite elem_of_dom, elem_of_list_to_set, list_elem_of_fmap. split.
    + intros Hk. apply alerts_fold_only in Hk as [(c & Hc & ->)|Hk].
      * now exists c.
      * rewrite lookup_empty in Hk. now destruct Hk.
    + intros (c & -> & Hc). eexists.
      apply alerts_fold_lookup; [assumption| |now left].
      rewrite Forall_forall in Hvalid. now apply Hvalid.
  - intros c Hc. apply alerts_fold_lookup; [assumption| |now left].
    rewrite Forall_forall in Hvalid. now apply Hvalid.
Qed.

Lemma get_alerts_mapping_witness :
  let d := Device 4 (device_regs sample_handle) in
  exists m s',
    get_alerts (PyRange 2 5) sample_handle = (Ok m, s') /\
    new_events sample_handle s' = [BusWrite [x04]; BusRead [cur_byte d]] /\
    dom m = list_to_set (str <$> [2; 3; 4]) /\
    forall c, c ∈ [2; 3; 4] ->
              m !! str c = Some (Z.testbit (byte_val (cur_byte d)) (c - 1)).
Proof.
  apply (get_alerts_mapping (PyRange 2 5) [2; 3; 4] sample_handle).
  - reflexivity.
  - repeat constructor; lia.
Defined.

(** X23: the mapping [get_alerts] returns for a list of channels in 1..4
    depends on which channels the list names only, not on their order or
    on repetitions: two such lists with the same members give the same
    outcome and leave the same state. *)
Theorem get_alerts_order_irrelevant (l1 l2 : list Z) (s : MCP960X) :
  Forall (fun c => 1 <= c <= 4) l1 ->
  (forall c, c ∈ l1 <-> c ∈ l2) ->
  get_alerts (PyList l1) s = get_alerts (PyList l2) s.
Proof.
  intros Hall1 Hsame.
  assert (Forall (fun c => valid_channel c = true) l1) as Hv1.
  { eapply Forall_impl; [exact Hall1|]. intros c Hc. now apply valid_channel_range. }
  assert (Forall (fun c => valid_channel c = true) l2) as Hv2.
  { rewrite Forall_forall in Hv1 |- *. intros c Hc. now apply Hv1, Hsame. }
  rewrite (get_alerts_valid_items (PyList l1) l1 s eq_refl Hv1).
  rewrite (get_alerts_valid_items (PyList l2) l2 s eq_refl Hv2).
  f_equal. f_equal. apply map_eq. intros k.
  set (status := byte_val (cur_byte (Device 4 (regs (dev (i2c s)))))).
  assert (forall la lb,
            Forall (fun c => valid_channel c = true) la ->
            Forall (fun c => valid_channel c = true) lb ->
            (forall c, c ∈ la -> c ∈ lb) ->
            forall v, alerts_fold status la ∅ !! k = Some v ->
                      alerts_fold status lb ∅ !! k = Some v) as Hsub.
  { intros la lb Ha Hb Hin v Hk.
    destruct (alerts_fold_only status la ∅ k) as [(c & Hc & ->)|Hemp];
      [now rewrite Hk| |rewrite lookup_empty in Hemp; now destruct Hemp].
    assert (valid_channel c = true) as Hvc
      by (rewrite Forall_forall in Ha; now apply Ha).
    rewrite (alerts_fold_lookup status la ∅ c Ha Hvc (or_introl Hc)) in Hk.
    rewrite <- Hk.
    apply alerts_fold_lookup; [assumption|assumption|left; now apply Hin]. }
  destruct (alerts_fold status l1 ∅ !! k) as [v|] eqn:E1.
  - symmetry. apply (Hsub l1 l2 Hv1 Hv2); [intros c; apply Hsame|exact E1].
  - destruct (alerts_fold status l2 ∅ !! k) as [v|] eqn:E2; [|reflexivity].
    rewrite (Hsub l2 l1 Hv2 Hv1 (fun c => proj2 (Hsame c)) v E2) in E1.
    discriminate.
Qed.

Lemma get_alerts_order_irrelevant_witness :
  get_alerts (PyList [2; 4; 2]) sample_handle =
  get_alerts (PyList [4; 2]) sample_handle.
Proof.
  apply get_alerts_order_irrelevant.
  - repeat constructor; lia.
  - intros c. rewrite !elem_of_cons, !elem_of_nil. tauto.
Defined.

(** ** Resolution and reading *)

(** X24: after [set_resolution], [read_temperatures] decodes with the
    resolutions that call cached: the hot-junction and delta counts times the
    step of the validated ADC bits (1 for 12, 0.25 for 14, 0.0625 for 16, 18
    and for every value that fell back to 18), the cold-junction count times
    the validated cold-junction resolution. *)
Theorem read_temperatures_after_set_resolution (adc : Z) (cold : Q)
    (s : MCP960X) :
  exists s1 r s2 b0 b1 b2 b3 b4 b5,
    set_resolution adc cold s = (Ok tt, s1) /\
    read_temperatures s1 = (Ok r, s2) /\
    dev_read (Device 0 (device_regs s1)) 6 = [b0; b1; b2; b3; b4; b5] /\
    let step := adc_step (if valid_adc_bits adc then adc else 18) in
    T_H r = (inject_Z (twos_complement16 b0 b1) * step)%Q /\
    T_delta r = (inject_Z (twos_complement16 b2 b3) * step)%Q /\
    T_C r = (inject_Z (twos_complement16 b4 b5) *
             (if valid_cold_res cold then cold else 1 # 16))%Q.
Proof.
  destruct (set_resolution_run adc cold s) as (b & H1 & _).
  destruct (read_temperatures_run (snd (set_resolution adc cold s)))
    as (b0 & b1 & b2 & b3 & b4 & b5 & E & H2).
  rewrite H1 in E, H2. cbv zeta in E, H2.
  cbn [snd i2c dev regs log _adc_resolution _cold_junction_res] in E, H2.
  eexists _, _, _, b0, b1, b2, b3, b4, b5.
  split; [exact H1|]. split; [exact H2|]. split; [exact E|].
  cbn [T_H T_delta T_C]. repeat split.
Qed.
